(** * A signed-request client for a crypto trading REST API

    Shallow embedding of [src/robinhood.ts]: the class [RobinhoodCrypto],
    its private methods [signRequest] and [makeRequest], and the nine public
    operations built on them.  JavaScript strings are modelled as [string]
    (the UTF-8 bytes that [Buffer.from(message)] produces), byte buffers
    as [list byte], doubles as [spec_float], objects as association lists
    in property order, and [async] methods as functions from the world to
    a completion and a new world. *)

From Stdlib Require Import ZArith NArith List Bool Lia.
From Stdlib Require Import Strings.String Strings.Ascii Strings.Byte.
From Stdlib Require Import DecimalString DecimalZ SpecFloat.
Import ListNotations.
Local Open Scope string_scope.
Set Warnings "-register-all".

(* ================================================================= *)
(** ** JavaScript values and the built-ins the client calls *)

Module JS.

(** A [number] is an IEEE 754 binary64 value. *)
Definition number : Type := spec_float.

(** [ToBoolean] on a number: zeros and NaN are falsy. *)
Definition ToBoolean_number (n : number) : bool :=
  match n with
  | S754_zero _ | S754_nan => false
  | S754_infinity _ | S754_finite _ _ _ => true
  end.

(** [ToBoolean] on a string: only the empty string is falsy. *)
Definition ToBoolean_string (s : string) : bool := negb (s =? "").

(** [ToBoolean] on an optional argument: [undefined] is falsy. *)
Definition truthy {A : Type} (tb : A -> bool) (x : option A) : bool :=
  match x with
  | Some a => tb a
  | None => false
  end.

(** A parameter with a default value, [f(x = d)]. *)
Definition default_arg {A : Type} (d : A) (x : option A) : A :=
  match x with
  | Some a => a
  | None => d
  end.

(** [Number.prototype.toString] on an integral value (timestamps, status
    codes): the decimal digits, with a minus sign below zero. *)
Definition Z_toString (z : Z) : string := NilZero.string_of_int (Z.to_int z).

(** [Array.prototype.join] on an array of strings. *)
Definition join (xs : list string) (sep : string) : string := String.concat sep xs.

(** [Array.prototype.push] of one element, as a new array. *)
Definition push (xs : list string) (x : string) : list string := (xs ++ [x])%list.

(** Thrown values: an error object with its [name] and [message]. *)
Record JSError : Type := mkJSError { err_name : string; err_message : string }.

Definition Error (m : string) : JSError := mkJSError "Error" m.
Definition TypeError (m : string) : JSError := mkJSError "TypeError" m.
Definition SyntaxError (m : string) : JSError := mkJSError "SyntaxError" m.

(** How a call ends: with a value, or with a thrown error (for an [async]
    method, a fulfilled or a rejected promise). *)
Inductive Completion (A : Type) : Type :=
| Returned (a : A)
| Thrown (e : JSError).
Arguments Returned {A} a.
Arguments Thrown {A} e.

(** Plain data: what object literals hold and what [response.json()] gives. *)
Inductive JSValue : Type :=
| JUndefined
| JNull
| JBool (b : bool)
| JNumber (n : number)
| JString (s : string)
| JArray (items : list JSValue)
| JObject (props : list (string * JSValue)).

(** An object's own enumerable string-keyed properties, in insertion order. *)
Definition JSObject : Type := list (string * JSValue).

Fixpoint get_prop (o : JSObject) (k : string) : option JSValue :=
  match o with
  | [] => None
  | (k', v) :: o' => if k' =? k then Some v else get_prop o' k
  end.

Definition has_prop (o : JSObject) (k : string) : bool :=
  match get_prop o k with
  | Some _ => true
  | None => false
  end.

(** [o[k] = v]: an existing property keeps its place and takes the new
    value; a new property goes last. *)
Fixpoint set_prop (o : JSObject) (k : string) (v : JSValue) : JSObject :=
  match o with
  | [] => [(k, v)]
  | (k', v') :: o' => if k' =? k then (k', v) :: o' else (k', v') :: set_prop o' k v
  end.

(** The object literal [{...o, k: v}]: the spread copies the properties of
    [o] in order, then [k] is defined on the copy. *)
Definition spread_with (o : JSObject) (k : string) (v : JSValue) : JSObject :=
  set_prop o k v.

(** *** JSON.stringify *)

Definition hex_digit (n : N) : ascii :=
  match String.get (N.to_nat n) "0123456789abcdef" with
  | Some c => c
  | None => "0"%char
  end.

Definition quote_char : ascii := ascii_of_nat 34.
Definition backslash : ascii := ascii_of_nat 92.

(** One character of a quoted JSON string. *)
Definition escape_char (c : ascii) : string :=
  let n := N_of_ascii c in
  if (n =? 34)%N then String backslash (String quote_char "")
  else if (n =? 92)%N then String backslash (String backslash "")
  else if (n =? 8)%N then String backslash "b"
  else if (n =? 9)%N then String backslash "t"
  else if (n =? 10)%N then String backslash "n"
  else if (n =? 12)%N then String backslash "f"
  else if (n =? 13)%N then String backslash "r"
  else if (n <? 32)%N then
    String backslash ("u00" ++ String (hex_digit (N.shiftr n 4)) (String (hex_digit (N.land n 15)) ""))
  else String c "".

Fixpoint escape_chars (s : string) : string :=
  match s with
  | EmptyString => ""
  | String c s' => escape_char c ++ escape_chars s'
  end.

Definition QuoteJSONString (s : string) : string :=
  String quote_char (escape_chars s ++ String quote_char "").

Definition is_finite (n : number) : bool :=
  match n with
  | S754_zero _ | S754_finite _ _ _ => true
  | S754_infinity _ | S754_nan => false
  end.

Section Serialize.

(** [Number::toString] on a double (the shortest digits that read back
    as the same value) is a built-in of the engine. *)
Variable Number_toString : number -> string.

(** [SerializeJSONProperty] without indentation: [None] stands for
    [undefined], which an object leaves out and an array writes as null. *)
Fixpoint SerializeJSONProperty (v : JSValue) : option string :=
  match v with
  | JUndefined => None
  | JNull => Some "null"
  | JBool b => Some (if b then "true" else "false")
  | JNumber n => Some (if is_finite n then Number_toString n else "null")
  | JString s => Some (QuoteJSONString s)
  | JArray items =>
      let element x :=
        match SerializeJSONProperty x with
        | Some s => s
        | None => "null"
        end in
      Some ("[" ++ join (map element items) "," ++ "]")
  | JObject props =>
      let members :=
        fix members (ps : list (string * JSValue)) : list string :=
          match ps with
          | [] => []
          | (k, x) :: ps' =>
              match SerializeJSONProperty x with
              | Some s => (QuoteJSONString k ++ ":" ++ s) :: members ps'
              | None => members ps'
              end
          end in
      Some ("{" ++ join (members props) "," ++ "}")
  end.

Definition JSON_stringify (v : JSValue) : option string := SerializeJSONProperty v.

End Serialize.

End JS.

(* ================================================================= *)
(** ** Base64, as [Buffer] writes and reads it *)

Module Base64.

Definition alphabet : string :=
  "ABCDEFGHIJKLMNOPQRSTUVWXYZabcdefghijklmnopqrstuvwxyz0123456789+/".

Definition pad : ascii := "="%char.

Definition digit (n : N) : ascii :=
  match String.get (N.to_nat n) alphabet with
  | Some c => c
  | None => pad
  end.

Definition byte_of_N (n : N) : byte :=
  match Byte.of_N (N.land n 255) with
  | Some b => b
  | None => x00
  end.

(** [buf.toString("base64")]: three bytes give four digits, and the last
    group is padded. *)
Fixpoint encode (bs : list byte) : string :=
  match bs with
  | [] => ""
  | [a] =>
      let x := Byte.to_N a in
      String (digit (N.shiftr x 2))
        (String (digit (N.shiftl (N.land x 3) 4)) (String pad (String pad "")))
  | [a; b] =>
      let x := Byte.to_N a in
      let y := Byte.to_N b in
      String (digit (N.shiftr x 2))
        (String (digit (N.lor (N.shiftl (N.land x 3) 4) (N.shiftr y 4)))
           (String (digit (N.shiftl (N.land y 15) 2)) (String pad "")))
  | a :: b :: c :: rest =>
      let x := Byte.to_N a in
      let y := Byte.to_N b in
      let z := Byte.to_N c in
      String (digit (N.shiftr x 2))
        (String (digit (N.lor (N.shiftl (N.land x 3) 4) (N.shiftr y 4)))
           (String (digit (N.lor (N.shiftl (N.land y 15) 2) (N.shiftr z 6)))
              (String (digit (N.land z 63)) (encode rest))))
  end.

(** The value of a digit; the decoder also takes the URL-safe [-] and [_]. *)
Definition unbase64 (c : ascii) : option N :=
  let n := N_of_ascii c in
  if (65 <=? n)%N && (n <=? 90)%N then Some (n - 65)%N
  else if (97 <=? n)%N && (n <=? 122)%N then Some (n - 71)%N
  else if (48 <=? n)%N && (n <=? 57)%N then Some (n + 4)%N
  else if (n =? 43)%N || (n =? 45)%N then Some 62%N
  else if (n =? 47)%N || (n =? 95)%N then Some 63%N
  else None.

(** The UTF-16 code units of a text held as UTF-8: a character of one,
    two or three bytes is one code unit, and a character of four bytes is
    a pair of surrogates.  A byte that starts no character reads as
    U+FFFD; no JavaScript string holds one. *)
Fixpoint code_units (s : string) : list N :=
  match s with
  | EmptyString => []
  | String c1 s1 =>
      let b1 := N_of_ascii c1 in
      if (b1 <? 128)%N then b1 :: code_units s1
      else if (b1 <? 192)%N then 65533%N :: code_units s1
      else if (b1 <? 224)%N then
        match s1 with
        | String c2 s2 =>
            N.lor (N.shiftl (N.land b1 31) 6) (N.land (N_of_ascii c2) 63) :: code_units s2
        | EmptyString => [65533%N]
        end
      else if (b1 <? 240)%N then
        match s1 with
        | String c2 (String c3 s3) =>
            N.lor (N.shiftl (N.land b1 15) 12)
              (N.lor (N.shiftl (N.land (N_of_ascii c2) 63) 6) (N.land (N_of_ascii c3) 63))
            :: code_units s3
        | _ => 65533%N :: code_units s1
        end
      else
        match s1 with
        | String c2 (String c3 (String c4 s4)) =>
            let point :=
              N.lor (N.shiftl (N.land b1 7) 18)
                (N.lor (N.shiftl (N.land (N_of_ascii c2) 63) 12)
                   (N.lor (N.shiftl (N.land (N_of_ascii c3) 63) 6)
                      (N.land (N_of_ascii c4) 63))) in
            let above := (point - 65536)%N in
            (55296 + N.shiftr above 10)%N :: (56320 + N.land above 1023)%N :: code_units s4
        | _ => 65533%N :: code_units s1
        end
  end.

(** The digits the decoder reads.  It takes every code unit by its low
    byte: a low byte that is no digit is skipped, and the first low byte
    [=] ends the input. *)
Fixpoint sextets_of (units : list N) : list N :=
  match units with
  | [] => []
  | u :: rest =>
      let c := ascii_of_N (N.land u 255) in
      match unbase64 c with
      | Some d => d :: sextets_of rest
      | None => if (c =? pad)%char then [] else sextets_of rest
      end
  end.

Definition sextets (s : string) : list N := sextets_of (code_units s).

Fixpoint bytes_of_sextets (ds : list N) : list byte :=
  match ds with
  | a :: b :: c :: d :: rest =>
      byte_of_N (N.lor (N.shiftl a 2) (N.shiftr b 4))
      :: byte_of_N (N.lor (N.shiftl (N.land b 15) 4) (N.shiftr c 2))
      :: byte_of_N (N.lor (N.shiftl (N.land c 3) 6) d)
      :: bytes_of_sextets rest
  | [a; b; c] =>
      [byte_of_N (N.lor (N.shiftl a 2) (N.shiftr b 4));
       byte_of_N (N.lor (N.shiftl (N.land b 15) 4) (N.shiftr c 2))]
  | [a; b] => [byte_of_N (N.lor (N.shiftl a 2) (N.shiftr b 4))]
  | _ => []
  end.

(** [Buffer.from(s, "base64")]: the decoder is forgiving and never throws.
    It reads the string code unit by code unit, each by its low byte. *)
Definition Buffer_from_base64 (s : string) : list byte := bytes_of_sextets (sextets s).

(** Base64 as RFC 4648 section 4 defines it: digits of the standard
    alphabet only, in groups of four, the last group padded with [=]. *)
Definition is_digit (c : ascii) : bool :=
  let n := N_of_ascii c in
  ((65 <=? n)%N && (n <=? 90)%N) || ((97 <=? n)%N && (n <=? 122)%N)
  || ((48 <=? n)%N && (n <=? 57)%N) || (n =? 43)%N || (n =? 47)%N.

Fixpoint after_digits (s : string) : string :=
  match s with
  | EmptyString => ""
  | String c s' => if is_digit c then after_digits s' else s
  end.

Definition valid_base64 (s : string) : bool :=
  (String.length s mod 4 =? 0)%nat
  && ((after_digits s =? "") || (after_digits s =? "=") || (after_digits s =? "==")).

End Base64.

(* ================================================================= *)
(** ** The signing calls of tweetnacl *)

Module Nacl.

Definition crypto_sign_BYTES : nat := 64.
Definition crypto_sign_PUBLICKEYBYTES : nat := 32.
Definition crypto_sign_SECRETKEYBYTES : nat := 64.

Record KeyPair : Type := { publicKey : list byte; secretKey : list byte }.

Definition bad_secret_key_size : JS.JSError := JS.Error "bad secret key size".

(** [nacl.sign.keyPair.fromSecretKey]: the secret key holds the seed and
    then the public key; any other length is refused. *)
Definition sign_keyPair_fromSecretKey (sk : list byte) : JS.Completion KeyPair :=
  if (List.length sk =? crypto_sign_SECRETKEYBYTES)%nat
  then JS.Returned {| publicKey := firstn crypto_sign_PUBLICKEYBYTES (skipn 32 sk);
                      secretKey := sk |}
  else JS.Thrown bad_secret_key_size.

Section Sign.

(** [crypto_sign] of the library: the signed message, which is the
    Ed25519 signature of the message under the secret key, followed by the
    message. *)
Variable crypto_sign : list byte -> list byte -> list byte.

(** [nacl.sign.detached]: the first [crypto_sign_BYTES] bytes of the
    signed message. *)
Definition sign_detached (msg sk : list byte) : JS.Completion (list byte) :=
  if (List.length sk =? crypto_sign_SECRETKEYBYTES)%nat
  then JS.Returned (firstn crypto_sign_BYTES (crypto_sign msg sk))
  else JS.Thrown bad_secret_key_size.

End Sign.

End Nacl.

(* ================================================================= *)
(** ** The engine, the network and the clock *)

(** What the JavaScript engine and tweetnacl compute and this
    development leaves open. *)
Class Platform : Type := {
  Number_toString : JS.number -> string;
  crypto_sign : list byte -> list byte -> list byte
}.

(** The second argument of [fetch]. *)
Record RequestInit : Type := {
  init_method : string;
  init_headers : list (string * string);
  init_body : option string
}.

Definition with_body (init : RequestInit) (body : string) : RequestInit :=
  {| init_method := init_method init;
     init_headers := init_headers init;
     init_body := Some body |}.

Record HttpCall : Type := { call_url : string; call_init : RequestInit }.

(** The parts of a [Response] the client reads: [status], and what
    [json()] settles to. *)
Record Response : Type := { status : Z; json : JS.Completion JS.JSValue }.

(** [response.ok]: a status from 200 to 299. *)
Definition ok (r : Response) : bool := (200 <=? status r)%Z && (status r <=? 299)%Z.

(** How the promise of [fetch] settles: with a response of any status, or
    rejected because the call never completed. *)
Inductive Settled : Type :=
| Fulfilled (r : Response)
| Rejected (reason : string).

Record World : Type := {
  Date_now : Z;                                   (* the clock, in milliseconds *)
  uuid_source : nat -> string;                    (* what uuidv4 returns, call after call *)
  uuid_drawn : nat;                               (* how many identifiers were drawn *)
  remote : list HttpCall -> HttpCall -> Settled;  (* the server and the network *)
  fetched : list HttpCall;                        (* the calls made to fetch, oldest first *)
  console : list (string * JS.JSError)            (* the lines of console.error *)
}.

(** An [async] method: it reads and changes the world and ends with a
    value or a thrown error. *)
Definition Async (A : Type) : Type := World -> JS.Completion A * World.

Definition ret {A : Type} (a : A) : Async A := fun w => (JS.Returned a, w).

Definition throw {A : Type} (e : JS.JSError) : Async A := fun w => (JS.Thrown e, w).

Definition settle {A : Type} (c : JS.Completion A) : Async A := fun w => (c, w).

Definition bind {A B : Type} (m : Async A) (k : A -> Async B) : Async B :=
  fun w =>
    match m w with
    | (JS.Returned a, w') => k a w'
    | (JS.Thrown e, w') => (JS.Thrown e, w')
    end.

Definition try_catch {A : Type} (m : Async A) (handler : JS.JSError -> Async A) : Async A :=
  fun w =>
    match m w with
    | (JS.Returned a, w') => (JS.Returned a, w')
    | (JS.Thrown e, w') => handler e w'
    end.

Declare Scope async_scope.
Delimit Scope async_scope with async.
Notation "x <- m ;; k" := (bind m (fun x => k))
  (at level 61, m at next level, right associativity) : async_scope.
Notation "' p <- m ;; k" := (bind m (fun p => k))
  (at level 61, p pattern, m at next level, right associativity) : async_scope.
Local Open Scope async_scope.

Definition Date_now_ms : Async Z := fun w => (JS.Returned (Date_now w), w).

(** The world after one more identifier was drawn, one more call was made
    to [fetch], one more line was written by [console.error]. *)
Definition drawn (w : World) : World :=
  {| Date_now := Date_now w;
     uuid_source := uuid_source w;
     uuid_drawn := S (uuid_drawn w);
     remote := remote w;
     fetched := fetched w;
     console := console w |}.

Definition called (w : World) (c : HttpCall) : World :=
  {| Date_now := Date_now w;
     uuid_source := uuid_source w;
     uuid_drawn := uuid_drawn w;
     remote := remote w;
     fetched := fetched w ++ [c];
     console := console w |}.

Definition logged (w : World) (label : string) (e : JS.JSError) : World :=
  {| Date_now := Date_now w;
     uuid_source := uuid_source w;
     uuid_drawn := uuid_drawn w;
     remote := remote w;
     fetched := fetched w;
     console := console w ++ [(label, e)] |}.

Definition uuidv4 : Async string :=
  fun w => (JS.Returned (uuid_source w (uuid_drawn w)), drawn w).

(** [fetch(url, init)]: the call is made, and a failed transport rejects
    with a [TypeError]. *)
Definition fetch (url : string) (init : RequestInit) : Async Response :=
  fun w =>
    let c := {| call_url := url; call_init := init |} in
    match remote w (fetched w) c with
    | Fulfilled r => (JS.Returned r, called w c)
    | Rejected reason => (JS.Thrown (JS.TypeError reason), called w c)
    end.

Definition console_error (label : string) (e : JS.JSError) : Async unit :=
  fun w => (JS.Returned tt, logged w label e).

(* ================================================================= *)
(** ** The client: [class RobinhoodCrypto] *)

Record RobinhoodConfig : Type := {
  privateKeyBase64 : string;
  publicKeyBase64 : string;
  apiKey : string
}.

Definition baseUrl : string := "https://trading.robinhood.com".

(** The message [signRequest] signs. *)
Definition message_to_sign (config : RobinhoodConfig) (timestamp path method body : string)
  : string :=
  apiKey config ++ timestamp ++ path ++ method ++ body.

(** [Date.now()] is a whole number of milliseconds, so the floor of its
    thousandth is the floored quotient.  The only caller, [makeRequest],
    always passes a body, so the default of the parameter is never taken. *)
Definition signRequest `{Platform} (config : RobinhoodConfig) (path method body : string)
  : Async (string * string) :=
  now <- Date_now_ms ;;
  let timestamp := JS.Z_toString (now / 1000) in
  let privateKeyBytes := Base64.Buffer_from_base64 (privateKeyBase64 config) in
  let publicKeyBytes := Base64.Buffer_from_base64 (publicKeyBase64 config) in
  signingKey <- settle (Nacl.sign_keyPair_fromSecretKey privateKeyBytes) ;;
  let message := message_to_sign config timestamp path method body in
  signature <- settle (Nacl.sign_detached crypto_sign (list_byte_of_string message)
                         (Nacl.secretKey signingKey)) ;;
  let signatureBase64 := Base64.encode signature in
  ret (timestamp, signatureBase64).

(** [new Error(`HTTP error! status: ${response.status}`)] *)
Definition HTTP_error (status : Z) : JS.JSError :=
  JS.Error ("HTTP error! status: " ++ JS.Z_toString status).

(** [body_arg] is [None] where the caller leaves the argument out; the
    parameter then takes its default, the empty string.  The promise of
    [response.json()] is returned from inside the [try] without [await],
    so its rejection passes the [catch] by. *)
Definition makeRequest `{Platform} (config : RobinhoodConfig) (path method : string)
  (body_arg : option string) : Async JS.JSValue :=
  let body := JS.default_arg "" body_arg in
  '(timestamp, signatureBase64) <- signRequest config path method body ;;
  let headers :=
    [("Content-Type", "application/json");
     ("x-api-key", apiKey config);
     ("x-timestamp", timestamp);
     ("x-signature", signatureBase64)] in
  let requestOptions :=
    {| init_method := method; init_headers := headers; init_body := None |} in
  let requestOptions :=
    if JS.ToBoolean_string body then with_body requestOptions body else requestOptions in
  response <- try_catch
    (response <- fetch (baseUrl ++ path) requestOptions ;;
     if negb (ok response)
     then throw (HTTP_error (status response))
     else ret response)
    (fun error =>
       _ <- console_error "Error making request:" error ;;
       throw error) ;;
  settle (json response).

(** *** Market data *)

Definition getBestBidAsk `{Platform} (config : RobinhoodConfig)
  (symbols_arg : option (list string)) : Async JS.JSValue :=
  let symbols := JS.default_arg ["BTC-USD"] symbols_arg in
  let queryString := JS.join (map (fun s => "symbol=" ++ s) symbols) "&" in
  makeRequest config ("/api/v1/crypto/marketdata/best_bid_ask/?" ++ queryString) "GET" None.

Inductive PriceSide : Type := bid | ask | both.

Definition PriceSide_text (side : PriceSide) : string :=
  match side with
  | bid => "bid"
  | ask => "ask"
  | both => "both"
  end.

Definition getEstimatedPrice `{Platform} (config : RobinhoodConfig)
  (symbol : string) (side : PriceSide) (quantities : list JS.number) : Async JS.JSValue :=
  let queryString :=
    "symbol=" ++ symbol ++ "&side=" ++ PriceSide_text side
    ++ "&quantity=" ++ JS.join (map Number_toString quantities) "," in
  makeRequest config ("/api/v1/crypto/marketdata/estimated_price/?" ++ queryString) "GET" None.

(** *** Trading pairs *)

Definition getTradingPairs `{Platform} (config : RobinhoodConfig)
  (symbols_arg : option (list string)) (limit : option JS.number) (cursor : option string)
  : Async JS.JSValue :=
  let symbols := JS.default_arg ["BTC-USD"] symbols_arg in
  let queryString := JS.join (map (fun s => "symbol=" ++ s) symbols) "&" in
  let queryString :=
    match limit with
    | Some n =>
        if JS.ToBoolean_number n then queryString ++ "&limit=" ++ Number_toString n
        else queryString
    | None => queryString
    end in
  let queryString :=
    match cursor with
    | Some c => if JS.ToBoolean_string c then queryString ++ "&cursor=" ++ c else queryString
    | None => queryString
    end in
  makeRequest config ("/api/v1/crypto/trading/trading_pairs/?" ++ queryString) "GET" None.

(** *** Orders *)

(** The property names of [interface OrderPayload]. *)
Definition OrderPayload_fields : list string :=
  ["symbol"; "side"; "type"; "market_order_config"; "limit_order_config";
   "stop_loss_order_config"; "stop_limit_order_config"].

(** An object with the properties of [OrderPayload] and no other. *)
Definition is_OrderPayload (order : JS.JSObject) : bool :=
  forallb (fun kv => existsb (String.eqb (fst kv)) OrderPayload_fields) order.

Definition placeOrder `{Platform} (config : RobinhoodConfig) (order : JS.JSObject)
  : Async JS.JSValue :=
  id <- uuidv4 ;;
  let payload := JS.spread_with order "client_order_id" (JS.JString id) in
  makeRequest config "/api/v1/crypto/trading/orders/" "POST"
    (JS.JSON_stringify Number_toString (JS.JObject payload)).

Definition getOrder `{Platform} (config : RobinhoodConfig) (orderId : string)
  : Async JS.JSValue :=
  makeRequest config ("/api/v1/crypto/trading/orders/" ++ orderId ++ "/") "GET" None.

Definition cancelOrder `{Platform} (config : RobinhoodConfig) (orderId : string)
  : Async JS.JSValue :=
  makeRequest config ("/api/v1/crypto/trading/orders/" ++ orderId ++ "/cancel/") "POST" None.

(** [interface OrderFilters]: every property is an optional string, so
    an object of the type holds strings and [undefined] ([None]), in the
    order the caller wrote them. *)
Definition OrderFilters : Type := list (string * option string).

(** [if (limit) queryParams.push(...)] and [if (cursor) queryParams.push(...)],
    as [getOrders] and [getHoldings] both end. *)
Definition push_limit_cursor `{Platform} (queryParams : list string)
  (limit : option JS.number) (cursor : option string) : list string :=
  let queryParams :=
    match limit with
    | Some n =>
        if JS.ToBoolean_number n then JS.push queryParams ("limit=" ++ Number_toString n)
        else queryParams
    | None => queryParams
    end in
  match cursor with
  | Some c => if JS.ToBoolean_string c then JS.push queryParams ("cursor=" ++ c) else queryParams
  | None => queryParams
  end.

(** The arrow function that [getOrders] runs over [Object.entries(filters)]:
    [([key, value]) => { if (value) queryParams.push(`${key}=${value}`) }]. *)
Definition push_filter (params : list string) (entry : string * option string) : list string :=
  match snd entry with
  | Some value =>
      if JS.ToBoolean_string value then JS.push params (fst entry ++ "=" ++ value) else params
  | None => params
  end.

Definition getOrders `{Platform} (config : RobinhoodConfig)
  (filters : option OrderFilters) (limit : option JS.number) (cursor : option string)
  : Async JS.JSValue :=
  let queryParams : list string := [] in
  let queryParams :=
    match filters with
    | Some entries => fold_left push_filter entries queryParams
    | None => queryParams
    end in
  let queryParams := push_limit_cursor queryParams limit cursor in
  let queryString :=
    if (0 <? List.length queryParams)%nat then "?" ++ JS.join queryParams "&" else "" in
  makeRequest config ("/api/v1/crypto/trading/orders/" ++ queryString) "GET" None.

(** *** Account and holdings *)

Definition getAccount `{Platform} (config : RobinhoodConfig) : Async JS.JSValue :=
  makeRequest config "/api/v1/crypto/trading/accounts/" "GET" None.

Definition getHoldings `{Platform} (config : RobinhoodConfig)
  (assetCodes : option (list string)) (limit : option JS.number) (cursor : option string)
  : Async JS.JSValue :=
  let queryParams : list string := [] in
  let queryParams :=
    match assetCodes with
    | Some codes =>
        fold_left (fun params code => JS.push params ("asset_code=" ++ code)) codes queryParams
    | None => queryParams
    end in
  let queryParams := push_limit_cursor queryParams limit cursor in
  let queryString :=
    if (0 <? List.length queryParams)%nat then "?" ++ JS.join queryParams "&" else "" in
  makeRequest config ("/api/v1/crypto/trading/holdings/" ++ queryString) "GET" None.

(** *** The public surface *)

Inductive Operation : Type :=
| GetBestBidAsk (symbols : option (list string))
| GetEstimatedPrice (symbol : string) (side : PriceSide) (quantities : list JS.number)
| GetTradingPairs (symbols : option (list string)) (limit : option JS.number)
    (cursor : option string)
| PlaceOrder (order : JS.JSObject)
| GetOrder (orderId : string)
| CancelOrder (orderId : string)
| GetOrders (filters : option OrderFilters) (limit : option JS.number)
    (cursor : option string)
| GetAccount
| GetHoldings (assetCodes : option (list string)) (limit : option JS.number)
    (cursor : option string).

Definition call `{Platform} (config : RobinhoodConfig) (op : Operation) : Async JS.JSValue :=
  match op with
  | GetBestBidAsk symbols => getBestBidAsk config symbols
  | GetEstimatedPrice symbol side quantities => getEstimatedPrice config symbol side quantities
  | GetTradingPairs symbols limit cursor => getTradingPairs config symbols limit cursor
  | PlaceOrder order => placeOrder config order
  | GetOrder orderId => getOrder config orderId
  | CancelOrder orderId => cancelOrder config orderId
  | GetOrders filters limit cursor => getOrders config filters limit cursor
  | GetAccount => getAccount config
  | GetHoldings assetCodes limit cursor => getHoldings config assetCodes limit cursor
  end.

(** The HTTP verb an operation passes to [makeRequest]. *)
Definition verb (op : Operation) : string :=
  match op with
  | PlaceOrder _ | CancelOrder _ => "POST"
  | _ => "GET"
  end.

(* ================================================================= *)
(** ** What a call shows from outside *)

(** The decoded private key has the length of an Ed25519 secret key. *)
Definition key_fits (config : RobinhoodConfig) : bool :=
  (List.length (Base64.Buffer_from_base64 (privateKeyBase64 config))
   =? Nacl.crypto_sign_SECRETKEYBYTES)%nat.

(** The [x-timestamp] of a request made in world [w]. *)
Definition timestamp_at (w : World) : string := JS.Z_toString (Date_now w / 1000).

(** The [x-signature] for a timestamp, path, method and body. *)
Definition signature_at `{Platform} (config : RobinhoodConfig)
  (timestamp path method body : string) : string :=
  Base64.encode
    (firstn Nacl.crypto_sign_BYTES
       (crypto_sign (list_byte_of_string (message_to_sign config timestamp path method body))
          (Base64.Buffer_from_base64 (privateKeyBase64 config)))).

(** The call to [fetch] that [makeRequest] builds in world [w]. *)
Definition request_at `{Platform} (config : RobinhoodConfig) (w : World)
  (path method body : string) : HttpCall :=
  {| call_url := baseUrl ++ path;
     call_init :=
       {| init_method := method;
          init_headers :=
            [("Content-Type", "application/json");
             ("x-api-key", apiKey config);
             ("x-timestamp", timestamp_at w);
             ("x-signature", signature_at config (timestamp_at w) path method body)];
          init_body := if JS.ToBoolean_string body then Some body else None |} |}.

(** The calls to [fetch] made during a run started in [w]. *)
Definition issued {A : Type} (run : Async A) (w : World) : list HttpCall :=
  skipn (List.length (fetched w)) (fetched (snd (run w))).

(** The completion of a run started in [w]. *)
Definition outcome {A : Type} (run : Async A) (w : World) : JS.Completion A := fst (run w).

(* ================================================================= *)
(** ** Instances for closed examples *)

Module Demo.

(** A stand-in for [Number::toString]: exact on NaN, the infinities, the
    zeros and the integral values; it drops the fraction of any other. *)
Definition integral_toString (n : JS.number) : string :=
  match n with
  | S754_nan => "NaN"
  | S754_infinity false => "Infinity"
  | S754_infinity true => "-Infinity"
  | S754_zero _ => "0"
  | S754_finite s m e =>
      (if s then "-" else "") ++ JS.Z_toString (Z.shiftl (Z.pos m) e)
  end.

(** A stand-in for the signed message: sixty-four bytes that depend on
    the message and on the key, then the message.  It is no signature
    scheme. *)
Definition stub_crypto_sign (msg sk : list byte) : list byte :=
  (firstn 64 (msg ++ sk ++ repeat x00 64) ++ msg)%list.

Definition platform : Platform :=
  {| Number_toString := integral_toString; crypto_sign := stub_crypto_sign |}.

(** Sixty-four bytes, 0 to 63, in base64. *)
Definition secret : string :=
  "AAECAwQFBgcICQoLDA0ODxAREhMUFRYXGBkaGxwdHh8gISIjJCUmJygpKissLS4vMDEyMzQ1Njc4OTo7PD0+Pw==".

Definition config : RobinhoodConfig :=
  {| privateKeyBase64 := secret;
     publicKeyBase64 := "ICEiIyQlJicoKSorLC0uLzAxMjM0NTY3ODk6Ozw9Pj8=";
     apiKey := "rh-api-demo" |}.

(** The configuration of [test/robinhood.test.ts]. *)
Definition test_config : RobinhoodConfig :=
  {| privateKeyBase64 := ""; publicKeyBase64 := ""; apiKey := "" |}.

(** The same secret with a blank between two groups: outside RFC 4648,
    and sixty-four bytes to the decoder all the same. *)
Definition spaced_secret : string :=
  "AAECAwQFBgcICQoLDA0ODxAREhMUFRYXGBkaGxwdHh8g ISIjJCUmJygpKissLS4vMDEyMzQ1Njc4OTo7PD0+Pw==".

(** The same secret without its padding. *)
Definition unpadded_secret : string :=
  "AAECAwQFBgcICQoLDA0ODxAREhMUFRYXGBkaGxwdHh8gISIjJCUmJygpKissLS4vMDEyMzQ1Njc4OTo7PD0+Pw".

Definition unpadded_config : RobinhoodConfig :=
  {| privateKeyBase64 := unpadded_secret;
     publicKeyBase64 := "ICEiIyQlJicoKSorLC0uLzAxMjM0NTY3ODk6Ozw9Pj8=";
     apiKey := "rh-api-demo" |}.

(** The same secret with its first digit, [A], written as U+0141, whose
    low byte is the byte of [A]. *)
Definition wide_secret : string :=
  String (ascii_of_nat 197) (String (ascii_of_nat 129) (substring 1 87 secret)).

(** The same secret with U+1F600 between two groups; its first code unit,
    U+D83D, has the low byte of [=]. *)
Definition emoji_secret : string :=
  substring 0 44 secret
  ++ String (ascii_of_nat 240)
       (String (ascii_of_nat 159) (String (ascii_of_nat 152) (String (ascii_of_nat 128) "")))
  ++ substring 44 44 secret.

Definition config_with_secret (key : string) : RobinhoodConfig :=
  {| privateKeyBase64 := key;
     publicKeyBase64 := "ICEiIyQlJicoKSorLC0uLzAxMjM0NTY3ODk6Ozw9Pj8=";
     apiKey := "rh-api-demo" |}.

Definition spaced_config : RobinhoodConfig :=
  {| privateKeyBase64 := spaced_secret;
     publicKeyBase64 := publicKeyBase64 config;
     apiKey := apiKey config |}.

Definition uuids (n : nat) : string :=
  "00000000-0000-4000-8000-" ++ JS.Z_toString (100000000000 + Z.of_nat n).

(** A world whose server answers every call with one response. *)
Definition world_answering (now : Z) (r : Response) : World :=
  {| Date_now := now;
     uuid_source := uuids;
     uuid_drawn := 0;
     remote := fun _ _ => Fulfilled r;
     fetched := [];
     console := [] |}.

(** A world in which no call completes. *)
Definition world_offline (now : Z) : World :=
  {| Date_now := now;
     uuid_source := uuids;
     uuid_drawn := 0;
     remote := fun _ _ => Rejected "fetch failed";
     fetched := [];
     console := [] |}.

Definition validation_error (detail : string) : JS.JSValue :=
  JS.JObject
    [("type", JS.JString "validation_error");
     ("errors", JS.JArray [JS.JObject [("detail", JS.JString detail); ("attr", JS.JNull)]])].

Definition bad_request (detail : string) : Response :=
  {| status := 400; json := JS.Returned (validation_error detail) |}.

Definition success (v : JS.JSValue) : Response :=
  {| status := 200; json := JS.Returned v |}.

(** The order of the test [should place a market order]. *)
Definition market_order : JS.JSObject :=
  [("side", JS.JString "buy");
   ("type", JS.JString "market");
   ("symbol", JS.JString "DOGE-USD");
   ("market_order_config",
    JS.JObject [("asset_quantity", JS.JNumber (S754_finite false 1 0))])].

End Demo.

(* ================================================================= *)
(** ** Query strings, by what they hold *)

(** The parameters a filter object gives: one for each property whose
    value is a string other than the empty one, in the order of the
    object. *)
Definition filter_params (entries : OrderFilters) : list string :=
  flat_map
    (fun entry =>
       match snd entry with
       | Some value => if JS.ToBoolean_string value then [fst entry ++ "=" ++ value] else []
       | None => []
       end)
    entries.

Definition limit_params `{Platform} (limit : option JS.number) : list string :=
  match limit with
  | Some n => if JS.ToBoolean_number n then ["limit=" ++ Number_toString n] else []
  | None => []
  end.

Definition cursor_params (cursor : option string) : list string :=
  match cursor with
  | Some c => if JS.ToBoolean_string c then ["cursor=" ++ c] else []
  | None => []
  end.

(** Nothing for no parameter, else [?] and the parameters joined by [&]. *)
Definition query_suffix (params : list string) : string :=
  match params with
  | [] => ""
  | _ :: _ => "?" ++ JS.join params "&"
  end.

(** How many identifiers an operation draws from the generator. *)
Definition draws (op : Operation) : nat :=
  match op with
  | PlaceOrder _ => 1
  | _ => 0
  end.

(** The numbers below a bound, and a test of every pair of them. *)
Definition N_below (n : nat) : list N := map N.of_nat (seq 0 n).

Definition forall_below2 (n m : nat) (f : N -> N -> bool) : bool :=
  forallb (fun x => forallb (f x) (N_below m)) (N_below n).

(** The digit is one of the standard alphabet and reads back as the value
    it was written for. *)
Definition reads_back (d : N) : bool :=
  match Base64.unbase64 (Base64.digit d) with
  | Some e => (e =? d)%N && Base64.is_digit (Base64.digit d)
  | None => false
  end.

(** What decoding needs of the digits written for a first byte [x] and a
    second byte [y]: in a full group, in a group of two bytes, and in a
    group of one. *)
Definition first_digits_fit (x y : N) : bool :=
  let d1 := N.shiftr x 2 in
  let d2 := N.lor (N.shiftl (N.land x 3) 4) (N.shiftr y 4) in
  let d3 := N.shiftl (N.land y 15) 2 in
  let e2 := N.shiftl (N.land x 3) 4 in
  reads_back d1 && reads_back d2 && reads_back d3 && reads_back e2
  && (N.land (N.lor (N.shiftl d1 2) (N.shiftr d2 4)) 255 =? x)%N
  && (N.land d2 15 =? N.shiftr y 4)%N
  && (N.land (N.lor (N.shiftl (N.land d2 15) 4) (N.shiftr d3 2)) 255 =? y)%N
  && (N.land (N.lor (N.shiftl d1 2) (N.shiftr e2 4)) 255 =? x)%N.

(** The same for a second byte [y] and a third byte [z] of a full group. *)
Definition last_digits_fit (y z : N) : bool :=
  let d3 := N.lor (N.shiftl (N.land y 15) 2) (N.shiftr z 6) in
  let d4 := N.land z 63 in
  reads_back d3 && reads_back d4
  && (N.land (N.lor (N.shiftl (N.shiftr y 4) 4) (N.shiftr d3 2)) 255 =? y)%N
  && (N.land (N.lor (N.shiftl (N.land d3 3) 6) d4) 255 =? z)%N.

(* ================================================================= *)
(** ** How [signRequest] and [makeRequest] run *)

Section Runs.

Context {P : Platform}.
Variable config : RobinhoodConfig.

Lemma key_fits_length :
  key_fits config = true <->
  List.length (Base64.Buffer_from_base64 (privateKeyBase64 config)) = 64%nat.
Proof. unfold key_fits, Nacl.crypto_sign_SECRETKEYBYTES. apply Nat.eqb_eq. Qed.

(** Signing reads the clock and nothing else of the world, and leaves the
    world as it is; it throws exactly when the key does not fit. *)
Lemma signRequest_run (path method body : string) (w : World) :
  signRequest config path method body w =
  if key_fits config
  then (JS.Returned (timestamp_at w, signature_at config (timestamp_at w) path method body), w)
  else (JS.Thrown Nacl.bad_secret_key_size, w).
Proof.
  unfold signRequest, bind, settle, ret, Date_now_ms, key_fits.
  unfold Nacl.sign_keyPair_fromSecretKey, Nacl.sign_detached.
  destruct (List.length (Base64.Buffer_from_base64 (privateKeyBase64 config))
            =? Nacl.crypto_sign_SECRETKEYBYTES)%nat eqn:Hlen.
  - cbn [Nacl.secretKey]. rewrite Hlen. reflexivity.
  - reflexivity.
Qed.

(** The whole of [makeRequest], case by case. *)
Lemma makeRequest_run (path method : string) (body_arg : option string) (w : World) :
  makeRequest config path method body_arg w =
  let body := JS.default_arg "" body_arg in
  let c := request_at config w path method body in
  if key_fits config
  then match remote w (fetched w) c with
       | Fulfilled r =>
           if ok r then (json r, called w c)
           else (JS.Thrown (HTTP_error (status r)),
                 logged (called w c) "Error making request:" (HTTP_error (status r)))
       | Rejected reason =>
           (JS.Thrown (JS.TypeError reason),
            logged (called w c) "Error making request:" (JS.TypeError reason))
       end
  else (JS.Thrown Nacl.bad_secret_key_size, w).
Proof.
  unfold makeRequest. cbv zeta.
  unfold bind at 1. rewrite signRequest_run.
  destruct (key_fits config); [| reflexivity].
  unfold request_at, bind, try_catch, fetch, throw, ret, settle, console_error, with_body.
  destruct (JS.ToBoolean_string (JS.default_arg "" body_arg));
    cbn [init_method init_headers init_body];
    match goal with
    | |- context [remote w (fetched w) ?c] => destruct (remote w (fetched w) c) as [r | reason]
    end;
    try reflexivity;
    destruct (ok r); reflexivity.
Qed.

(** [makeRequest] leaves the clock and the identifier generator alone. *)
Lemma makeRequest_frame (path method : string) (body_arg : option string) (w : World) :
  Date_now (snd (makeRequest config path method body_arg w)) = Date_now w
  /\ uuid_source (snd (makeRequest config path method body_arg w)) = uuid_source w
  /\ uuid_drawn (snd (makeRequest config path method body_arg w)) = uuid_drawn w.
Proof.
  rewrite makeRequest_run. cbv zeta.
  destruct (key_fits config); [| repeat split].
  destruct (remote _ _ _) as [r | reason]; [destruct (ok r) |]; repeat split.
Qed.

End Runs.

(* ================================================================= *)
(** ** Strings and lists *)

Lemma list_ascii_of_append (a b : string) :
  list_ascii_of_string (a ++ b) = (list_ascii_of_string a ++ list_ascii_of_string b)%list.
Proof. induction a as [| c a IH]; cbn; [reflexivity | now rewrite IH]. Qed.

Lemma list_ascii_of_string_inj (a b : string) :
  list_ascii_of_string a = list_ascii_of_string b -> a = b.
Proof.
  intros E.
  rewrite <- (string_of_list_ascii_of_string a), <- (string_of_list_ascii_of_string b).
  now rewrite E.
Qed.

Lemma append_inv_head (s a b : string) : s ++ a = s ++ b -> a = b.
Proof. induction s as [| c s IH]; cbn; intros E; [exact E | injection E; exact IH]. Qed.

Lemma append_inv_tail (s a b : string) : a ++ s = b ++ s -> a = b.
Proof.
  intros E. apply list_ascii_of_string_inj.
  apply (f_equal list_ascii_of_string) in E.
  rewrite !list_ascii_of_append in E.
  exact (app_inv_tail _ _ _ E).
Qed.

(** A change in the middle of a concatenation shows in the whole. *)
Lemma append_middle_inj (pre a b post : string) :
  pre ++ a ++ post = pre ++ b ++ post -> a = b.
Proof. intros E. apply append_inv_head in E. now apply append_inv_tail in E. Qed.

Lemma append_assoc (a b c : string) : (a ++ b) ++ c = a ++ b ++ c.
Proof. induction a as [| x a IH]; cbn; [reflexivity | now rewrite IH]. Qed.

Lemma skipn_length_app {A : Type} (l extra : list A) :
  skipn (List.length l) (l ++ extra) = extra.
Proof. induction l as [| x l IH]; cbn; [reflexivity | exact IH]. Qed.

Lemma Z_to_int_not_nil (z : Z) : Z.to_int z <> Decimal.Pos Decimal.Nil /\ Z.to_int z <> Decimal.Neg Decimal.Nil.
Proof.
  destruct z as [| p | p]; cbn; split; try discriminate;
    intros E; injection E; apply DecimalPos.Unsigned.to_uint_nonnil.
Qed.

(** The decimal text of an integer determines the integer. *)
Lemma Z_toString_inj (a b : Z) : JS.Z_toString a = JS.Z_toString b -> a = b.
Proof.
  unfold JS.Z_toString. intros E.
  apply DecimalZ.to_int_inj.
  assert (Some (Z.to_int a) = Some (Z.to_int b)) as S.
  { destruct (Z_to_int_not_nil a) as [Ha Ha'], (Z_to_int_not_nil b) as [Hb Hb'].
    rewrite <- (NilZero.isi _ Ha Ha'), <- (NilZero.isi _ Hb Hb'). now rewrite E. }
  now injection S.
Qed.

(* ================================================================= *)
(** ** Base64 on the test vectors of RFC 4648 *)

Example encode_rfc4648 :
  map (fun s => Base64.encode (list_byte_of_string s))
    [""; "f"; "fo"; "foo"; "foob"; "fooba"; "foobar"]
  = [""; "Zg=="; "Zm8="; "Zm9v"; "Zm9vYg=="; "Zm9vYmE="; "Zm9vYmFy"].
Proof. vm_compute. reflexivity. Qed.

Example decode_rfc4648 :
  map (fun s => string_of_list_byte (Base64.Buffer_from_base64 s))
    [""; "Zg=="; "Zm8="; "Zm9v"; "Zm9vYg=="; "Zm9vYmE="; "Zm9vYmFy"]
  = [""; "f"; "fo"; "foo"; "foob"; "fooba"; "foobar"].
Proof. vm_compute. reflexivity. Qed.

(** The decoder takes what RFC 4648 refuses: blanks, missing padding and
    the URL-safe digits. *)
Example decode_forgiving :
  map (fun s => (Base64.valid_base64 s, string_of_list_byte (Base64.Buffer_from_base64 s)))
    ["Zm9v YmFy"; "Zm9vYg"; "Pz8_"]
  = [(false, "foobar"); (false, "foob"); (false, "???")].
Proof. vm_compute. reflexivity. Qed.

(** Code units of U+0041, U+00E9, U+0141, U+20AC and U+1F600. *)
Example code_units_of_characters :
  Base64.code_units
    (String (ascii_of_nat 65)
       (String (ascii_of_nat 195) (String (ascii_of_nat 169)
          (String (ascii_of_nat 197) (String (ascii_of_nat 129)
             (String (ascii_of_nat 226) (String (ascii_of_nat 130) (String (ascii_of_nat 172)
                (String (ascii_of_nat 240) (String (ascii_of_nat 159)
                   (String (ascii_of_nat 152) (String (ascii_of_nat 128) ""))))))))))))
  = [65; 233; 321; 8364; 55357; 56832]%N.
Proof. vm_compute. reflexivity. Qed.

(** The decoder reads a code unit above U+00FF by its low byte: U+0141
    counts as the digit [A], and U+D83D ends the input as [=] does. *)
Example decoder_reads_low_bytes :
  Base64.Buffer_from_base64 Demo.wide_secret = Base64.Buffer_from_base64 Demo.secret
  /\ key_fits (Demo.config_with_secret Demo.wide_secret) = true
  /\ Base64.Buffer_from_base64 Demo.emoji_secret
     = firstn 33 (Base64.Buffer_from_base64 Demo.secret)
  /\ key_fits (Demo.config_with_secret Demo.emoji_secret) = false
  /\ issued (@getAccount Demo.platform (Demo.config_with_secret Demo.wide_secret))
       (Demo.world_offline 1700000000123)
     = [@request_at Demo.platform (Demo.config_with_secret Demo.wide_secret)
          (Demo.world_offline 1700000000123) "/api/v1/crypto/trading/accounts/" "GET" ""]
  /\ outcome (@getAccount Demo.platform (Demo.config_with_secret Demo.emoji_secret))
       (Demo.world_offline 1700000000123)
     = JS.Thrown (JS.Error "bad secret key size")
  /\ issued (@getAccount Demo.platform (Demo.config_with_secret Demo.emoji_secret))
       (Demo.world_offline 1700000000123)
     = [].
Proof. do 6 (split; [vm_compute; reflexivity |]). vm_compute. reflexivity. Qed.

Example demo_secret_decodes :
  Base64.encode (Base64.Buffer_from_base64 Demo.secret) = Demo.secret
  /\ Base64.Buffer_from_base64 Demo.spaced_secret = Base64.Buffer_from_base64 Demo.secret
  /\ Base64.Buffer_from_base64 Demo.unpadded_secret = Base64.Buffer_from_base64 Demo.secret.
Proof. vm_compute. repeat split. Qed.

(* ================================================================= *)
(** ** The request signer *)

(** C1.  The message that [signRequest] signs is the API key, the
    timestamp, the path, the method and the body, concatenated in that
    order with nothing between them: [signRequest] returns the base64 of
    the signature of exactly these bytes.  With the other four fields held
    fixed, a change of any one field changes the message. *)
Theorem canonical_message_concatenation {P : Platform} (config : RobinhoodConfig)
  (timestamp path method body : string) :
  message_to_sign config timestamp path method body
  = apiKey config ++ timestamp ++ path ++ method ++ body
  /\ (forall w : World,
        key_fits config = true ->
        outcome (signRequest config path method body) w
        = JS.Returned
            (timestamp_at w,
             Base64.encode
               (firstn 64
                  (crypto_sign
                     (list_byte_of_string
                        (apiKey config ++ timestamp_at w ++ path ++ method ++ body))
                     (Base64.Buffer_from_base64 (privateKeyBase64 config))))))
  /\ (forall config' : RobinhoodConfig,
        apiKey config' <> apiKey config ->
        message_to_sign config' timestamp path method body
        <> message_to_sign config timestamp path method body)
  /\ (forall timestamp' : string,
        timestamp' <> timestamp ->
        message_to_sign config timestamp' path method body
        <> message_to_sign config timestamp path method body)
  /\ (forall path' : string,
        path' <> path ->
        message_to_sign config timestamp path' method body
        <> message_to_sign config timestamp path method body)
  /\ (forall method' : string,
        method' <> method ->
        message_to_sign config timestamp path method' body
        <> message_to_sign config timestamp path method body)
  /\ (forall body' : string,
        body' <> body ->
        message_to_sign config timestamp path method body'
        <> message_to_sign config timestamp path method body).
Proof.
  unfold message_to_sign.
  split; [reflexivity |].
  split.
  { intros w Hkey. unfold outcome. rewrite signRequest_run, Hkey. reflexivity. }
  split.
  { intros config' Hne E. apply Hne. exact (append_inv_tail _ _ _ E). }
  split.
  { intros timestamp' Hne E. apply Hne. exact (append_middle_inj _ _ _ _ E). }
  split.
  { intros path' Hne E. apply Hne.
    rewrite <- !(append_assoc (apiKey config)) in E.
    exact (append_middle_inj _ _ _ _ E). }
  split.
  { intros method' Hne E. apply Hne.
    rewrite <- !(append_assoc (apiKey config)), <- !(append_assoc (apiKey config ++ timestamp)) in E.
    exact (append_middle_inj _ _ _ _ E). }
  intros body' Hne E. apply Hne.
  do 3 apply append_inv_head in E. exact (append_inv_head _ _ _ E).
Qed.

Lemma canonical_message_concatenation_witness :
  message_to_sign Demo.config "1700000000" "/api/v1/crypto/trading/accounts/" "GET" ""
  = "rh-api-demo1700000000/api/v1/crypto/trading/accounts/GET"
  /\ outcome
       (@signRequest Demo.platform Demo.config "/api/v1/crypto/trading/accounts/" "GET" "")
       (Demo.world_offline 1700000000123)
     = JS.Returned
         ("1700000000",
          "cmgtYXBpLWRlbW8xNzAwMDAwMDAwL2FwaS92MS9jcnlwdG8vdHJhZGluZy9hY2NvdW50cy9HRVQAAQIDBAUGBw==")
  /\ message_to_sign Demo.config "1700000000" "/api/v1/crypto/trading/accounts/" "POST" ""
     <> message_to_sign Demo.config "1700000000" "/api/v1/crypto/trading/accounts/" "GET" "".
Proof.
  destruct (@canonical_message_concatenation Demo.platform Demo.config
              "1700000000" "/api/v1/crypto/trading/accounts/" "GET" "")
    as (Hmsg & Hsign & _ & _ & _ & Hmethod & _).
  split; [exact Hmsg |].
  split; [exact (Hsign (Demo.world_offline 1700000000123) eq_refl) |].
  apply Hmethod. discriminate.
Defined.

(** C4.  Signing is a function of the client's keys, the timestamp, the
    path, the method and the body: it leaves the world as it is, and two
    runs that read the same timestamp from the clock end with the same
    timestamp and signature (or with the same error), whatever else
    differs between the two worlds. *)
Theorem signing_deterministic {P : Platform} (config : RobinhoodConfig)
  (path method body : string) (w1 w2 : World) :
  timestamp_at w1 = timestamp_at w2 ->
  outcome (signRequest config path method body) w1
  = outcome (signRequest config path method body) w2
  /\ snd (signRequest config path method body w1) = w1
  /\ snd (signRequest config path method body w2) = w2.
Proof.
  intros Hts. unfold outcome. rewrite !signRequest_run, Hts.
  destruct (key_fits config); repeat split.
Qed.

Lemma signing_deterministic_witness :
  Demo.world_offline 1700000000123
  <> Demo.world_answering 1700000000999 (Demo.success JS.JNull)
  /\ outcome (@signRequest Demo.platform Demo.config "/api/v1/crypto/trading/accounts/" "GET" "")
       (Demo.world_offline 1700000000123)
     = outcome (@signRequest Demo.platform Demo.config "/api/v1/crypto/trading/accounts/" "GET" "")
         (Demo.world_answering 1700000000999 (Demo.success JS.JNull)).
Proof.
  split; [discriminate |].
  exact (proj1 (@signing_deterministic Demo.platform Demo.config
                  "/api/v1/crypto/trading/accounts/" "GET" ""
                  (Demo.world_offline 1700000000123)
                  (Demo.world_answering 1700000000999 (Demo.success JS.JNull))
                  eq_refl)).
Defined.

(** The public key of the configuration has no part in the signature. *)
Lemma signature_ignores_public_key {P : Platform} (c1 c2 : RobinhoodConfig)
  (path method body : string) (w : World) :
  privateKeyBase64 c1 = privateKeyBase64 c2 ->
  apiKey c1 = apiKey c2 ->
  outcome (signRequest c1 path method body) w = outcome (signRequest c2 path method body) w.
Proof.
  intros Hk Ha. unfold outcome. rewrite !signRequest_run.
  unfold key_fits, signature_at, message_to_sign. now rewrite Hk, Ha.
Qed.

(* ================================================================= *)
(** ** The request dispatcher *)

Section Dispatcher.

Context {P : Platform}.
Variable config : RobinhoodConfig.

(** [makeRequest] calls [fetch] once when the key fits, and not at all
    when it does not. *)
Lemma issued_makeRequest (path method : string) (body_arg : option string) (w : World) :
  issued (makeRequest config path method body_arg) w
  = if key_fits config
    then [request_at config w path method (JS.default_arg "" body_arg)]
    else [].
Proof.
  unfold issued. rewrite makeRequest_run. cbv zeta.
  destruct (key_fits config).
  - destruct (remote w (fetched w) _) as [r | reason]; [destruct (ok r) |];
      cbn [snd fetched called logged]; apply skipn_length_app.
  - cbn [snd]. apply skipn_all.
Qed.

(** Every operation ends in one [makeRequest] with the operation's verb,
    started in a world with the same calls behind it; the operations that
    pass [GET] pass no body. *)
Lemma call_dispatch (op : Operation) (w : World) :
  exists (path : string) (body_arg : option string) (w' : World),
    call config op w = makeRequest config path (verb op) body_arg w'
    /\ fetched w' = fetched w
    /\ console w' = console w
    /\ (verb op = "GET" -> body_arg = None).
Proof.
  destruct op; cbn [call verb];
    lazymatch goal with
    | |- context [placeOrder] =>
        (* placeOrder draws an identifier first *)
        unfold placeOrder, bind, uuidv4;
        eexists _, _, (drawn w); split; [reflexivity |];
        split; [reflexivity |]; split; [reflexivity | discriminate]
    | |- _ =>
        eexists _, None, w; split; [reflexivity |];
        split; [reflexivity |]; split; reflexivity
    end.
Qed.

Lemma issued_call (op : Operation) (w : World) (c : HttpCall) :
  In c (issued (call config op) w) ->
  init_method (call_init c) = verb op
  /\ (verb op = "GET" -> init_body (call_init c) = None).
Proof.
  destruct (call_dispatch op w) as (path & body_arg & w' & Hrun & Hf & _ & Hget).
  unfold issued. rewrite Hrun, <- Hf.
  fold (issued (makeRequest config path (verb op) body_arg) w').
  rewrite issued_makeRequest.
  destruct (key_fits config); [| intros []].
  intros [<- | []]. split; [reflexivity |].
  intros Hverb. rewrite (Hget Hverb). reflexivity.
Qed.

End Dispatcher.

(** C5.  The call to [fetch] carries a body exactly when the caller of
    [makeRequest] passed a body that is not the empty string, and the body
    is then the caller's; every operation that dispatches a [GET] passes
    no body, so no [GET] call carries one. *)
Theorem body_attached_iff_nonempty {P : Platform} (config : RobinhoodConfig) (w : World) :
  (forall (path method : string) (body_arg : option string),
     issued (makeRequest config path method body_arg) w
     = (if key_fits config
        then [request_at config w path method (JS.default_arg "" body_arg)]
        else [])
     /\ forall b : string,
          init_body (call_init (request_at config w path method (JS.default_arg "" body_arg)))
          = Some b
          <-> body_arg = Some b /\ b <> "")
  /\ (forall (op : Operation) (c : HttpCall),
        In c (issued (call config op) w) ->
        init_method (call_init c) = verb op
        /\ (init_method (call_init c) = "GET" -> init_body (call_init c) = None)).
Proof.
  split.
  - intros path method body_arg. split; [apply issued_makeRequest |].
    intros b. unfold request_at. cbn [call_init init_body].
    unfold JS.ToBoolean_string.
    destruct body_arg as [s |]; cbn [JS.default_arg].
    + destruct (String.eqb_spec s "") as [-> | Hne]; cbn [negb]; split.
      * discriminate.
      * intros [E Hb]. injection E as <-. now elim Hb.
      * intros E. injection E as <-. now split.
      * intros [E _]. exact E.
    + cbn. split; [discriminate | intros [E _]; discriminate].
  - intros op c Hin. destruct (issued_call config op w c Hin) as [Hm Hb].
    split; [exact Hm |]. intros Hget. apply Hb. now rewrite <- Hm.
Qed.

Lemma body_attached_iff_nonempty_witness :
  issued (@call Demo.platform Demo.config (GetOrder "42"))
    (Demo.world_answering 1700000000123 (Demo.success JS.JNull))
  = [@request_at Demo.platform Demo.config
       (Demo.world_answering 1700000000123 (Demo.success JS.JNull))
       "/api/v1/crypto/trading/orders/42/" "GET" ""]
  /\ forall c : HttpCall,
       In c (issued (@call Demo.platform Demo.config (GetOrder "42"))
               (Demo.world_answering 1700000000123 (Demo.success JS.JNull))) ->
       init_body (call_init c) = None.
Proof.
  destruct (@body_attached_iff_nonempty Demo.platform Demo.config
              (Demo.world_answering 1700000000123 (Demo.success JS.JNull)))
    as [Hmake Hops].
  split.
  - exact (proj1 (Hmake "/api/v1/crypto/trading/orders/42/" "GET" None)).
  - intros c Hin. destruct (Hops (GetOrder "42") c Hin) as [Hm Hb].
    apply Hb. exact Hm.
Defined.

(** X22.  What [makeRequest] does with a failure.  When the call completes
    with a status outside 200..299, [makeRequest] throws the error
    [Error("HTTP error! status: <status>")] and returns no value; the error
    determines the status and carries nothing of the response body.  When
    the call does not complete, [makeRequest] rethrows the [TypeError] of
    [fetch], which is no HTTP-status error. *)
Theorem failure_surfaces_as_error {P : Platform} (config : RobinhoodConfig)
  (path method : string) (body_arg : option string) (w : World) :
  key_fits config = true ->
  (forall r : Response,
     remote w (fetched w) (request_at config w path method (JS.default_arg "" body_arg))
     = Fulfilled r ->
     ok r = false ->
     outcome (makeRequest config path method body_arg) w = JS.Thrown (HTTP_error (status r))
     /\ (forall v : JS.JSValue,
           outcome (makeRequest config path method body_arg) w <> JS.Returned v)
     /\ (forall s : Z, HTTP_error s = HTTP_error (status r) -> s = status r))
  /\ (forall reason : string,
        remote w (fetched w) (request_at config w path method (JS.default_arg "" body_arg))
        = Rejected reason ->
        outcome (makeRequest config path method body_arg) w = JS.Thrown (JS.TypeError reason)
        /\ (forall s : Z, JS.TypeError reason <> HTTP_error s)).
Proof.
  intros Hkey. unfold outcome. rewrite makeRequest_run, Hkey. cbv zeta.
  split.
  - intros r -> Hok. rewrite Hok. cbn [fst].
    split; [reflexivity |]. split; [discriminate |].
    intros s E. apply Z_toString_inj.
    unfold HTTP_error, JS.Error in E.
    apply (f_equal JS.err_message) in E. cbn [JS.err_message] in E.
    exact (append_inv_head _ _ _ E).
  - intros reason ->. cbn [fst]. split; [reflexivity |].
    intros s. unfold JS.TypeError, HTTP_error, JS.Error. discriminate.
Qed.

Lemma failure_surfaces_as_error_witness :
  outcome (@makeRequest Demo.platform Demo.config "/api/v1/crypto/trading/accounts/" "GET" None)
    (Demo.world_answering 1700000000123 (Demo.bad_request "Invalid symbol"))
  = JS.Thrown (JS.Error "HTTP error! status: 400")
  /\ outcome (@makeRequest Demo.platform Demo.config "/api/v1/crypto/trading/accounts/" "GET" None)
       (Demo.world_offline 1700000000123)
     = JS.Thrown (JS.TypeError "fetch failed").
Proof.
  split.
  - exact (proj1 (proj1 (@failure_surfaces_as_error Demo.platform Demo.config
                           "/api/v1/crypto/trading/accounts/" "GET" None
                           (Demo.world_answering 1700000000123 (Demo.bad_request "Invalid symbol"))
                           eq_refl)
                    (Demo.bad_request "Invalid symbol") eq_refl eq_refl)).
  - exact (proj1 (proj2 (@failure_surfaces_as_error Demo.platform Demo.config
                           "/api/v1/crypto/trading/accounts/" "GET" None
                           (Demo.world_offline 1700000000123) eq_refl)
                    "fetch failed" eq_refl)).
Defined.


(** C8, as the code has it.  When the decoded private key is not
    sixty-four bytes long, every operation ends with the error
    [Error("bad secret key size")] of the key-pair derivation, makes no
    call to [fetch] and writes nothing to the console. *)
Theorem misfit_key_aborts_before_network {P : Platform} (config : RobinhoodConfig)
  (op : Operation) (w : World) :
  key_fits config = false ->
  outcome (call config op) w = JS.Thrown Nacl.bad_secret_key_size
  /\ issued (call config op) w = []
  /\ fetched (snd (call config op w)) = fetched w
  /\ console (snd (call config op w)) = console w.
Proof.
  intros Hkey.
  destruct (call_dispatch config op w) as (path & body_arg & w' & Hrun & Hf & Hc & _).
  unfold outcome, issued. rewrite Hrun, makeRequest_run, Hkey. cbv zeta. cbn [fst snd].
  rewrite Hf, Hc. repeat split. apply skipn_all.
Qed.

Lemma misfit_key_aborts_before_network_witness :
  outcome (@call Demo.platform Demo.test_config GetAccount) (Demo.world_offline 1700000000123)
  = JS.Thrown (JS.Error "bad secret key size")
  /\ issued (@call Demo.platform Demo.test_config GetAccount) (Demo.world_offline 1700000000123)
     = [].
Proof.
  destruct (@misfit_key_aborts_before_network Demo.platform Demo.test_config GetAccount
              (Demo.world_offline 1700000000123) eq_refl) as (Hout & Hiss & _).
  split; [exact Hout | exact Hiss].
Defined.

(** C8, as the claim has it, fails: a private key that is not valid
    base64 (a blank stands between two groups, or the padding is missing)
    decodes to sixty-four bytes, so signing succeeds and the operation
    calls [fetch], on every platform and in every world. *)
Lemma malformed_key_still_dispatches :
  Base64.valid_base64 (privateKeyBase64 Demo.spaced_config) = false
  /\ List.length (Base64.Buffer_from_base64 (privateKeyBase64 Demo.spaced_config)) = 64%nat
  /\ (forall (P : Platform) (w : World),
        issued (getAccount Demo.spaced_config) w
        = [request_at Demo.spaced_config w "/api/v1/crypto/trading/accounts/" "GET" ""])
  /\ outcome (@getAccount Demo.platform Demo.spaced_config)
       (Demo.world_answering 1700000000123 (Demo.success JS.JNull))
     = JS.Returned JS.JNull
  /\ Base64.valid_base64 (privateKeyBase64 Demo.unpadded_config) = false
  /\ (forall (P : Platform) (w : World),
        issued (getAccount Demo.unpadded_config) w
        = [request_at Demo.unpadded_config w "/api/v1/crypto/trading/accounts/" "GET" ""])
  /\ outcome (@getAccount Demo.platform Demo.unpadded_config)
       (Demo.world_answering 1700000000123 (Demo.success JS.JNull))
     = JS.Returned JS.JNull.
Proof.
  split; [reflexivity |]. split; [reflexivity |].
  split; [intros P w; unfold getAccount; rewrite issued_makeRequest; reflexivity |].
  split; [reflexivity |]. split; [reflexivity |].
  split; [intros P w; unfold getAccount; rewrite issued_makeRequest; reflexivity |].
  reflexivity.
Qed.

(* ================================================================= *)
(** ** The operation builders *)

Lemma set_prop_absent (o : JS.JSObject) (k : string) (v : JS.JSValue) :
  JS.get_prop o k = None -> JS.set_prop o k v = (o ++ [(k, v)])%list.
Proof.
  induction o as [| [k' v'] o IH]; cbn; [reflexivity |].
  destruct (k' =? k); [discriminate |]. intros Habs. now rewrite IH.
Qed.

Lemma get_prop_app_other (o : JS.JSObject) (k k' : string) (v : JS.JSValue) :
  k' <> k -> JS.get_prop (o ++ [(k, v)])%list k' = JS.get_prop o k'.
Proof.
  intros Hne. induction o as [| [k0 v0] o IH]; cbn.
  - destruct (String.eqb_spec k k'); [now subst | reflexivity].
  - destruct (k0 =? k'); [reflexivity | exact IH].
Qed.

Lemma get_prop_app_new (o : JS.JSObject) (k : string) (v : JS.JSValue) :
  JS.get_prop o k = None -> JS.get_prop (o ++ [(k, v)])%list k = Some v.
Proof.
  induction o as [| [k0 v0] o IH]; cbn.
  - now rewrite String.eqb_refl.
  - destruct (k0 =? k); [discriminate | exact IH].
Qed.

(** [interface OrderPayload] declares no [client_order_id]. *)
Lemma is_OrderPayload_no_id (order : JS.JSObject) :
  is_OrderPayload order = true -> JS.get_prop order "client_order_id" = None.
Proof.
  unfold is_OrderPayload.
  induction order as [| [k v] order IH]; cbn [forallb JS.get_prop fst]; [reflexivity |].
  intros H. apply andb_prop in H. destruct H as [Hk Hrest].
  destruct (String.eqb_spec k "client_order_id") as [-> | _].
  - cbn in Hk. discriminate.
  - exact (IH Hrest).
Qed.

(** An object is never serialized to the empty string. *)
Lemma JSON_stringify_object (to_text : JS.number -> string) (o : JS.JSObject) :
  exists body : string,
    JS.JSON_stringify to_text (JS.JObject o) = Some body /\ body <> "".
Proof.
  unfold JS.JSON_stringify. cbn [JS.SerializeJSONProperty].
  eexists. split; [reflexivity | discriminate].
Qed.

(** C2.  For an order with the properties of [OrderPayload], [placeOrder]
    draws one identifier from the generator and calls [makeRequest] with
    [POST], the path of the orders resource, and the JSON text of the
    order's properties, unchanged and in order, followed by the one new
    property [client_order_id] holding that identifier; when the key fits,
    this is the one call made to [fetch], and its body is that text. *)
Theorem placeOrder_adds_client_order_id {P : Platform} (config : RobinhoodConfig)
  (order : JS.JSObject) (w : World) :
  is_OrderPayload order = true ->
  let id := uuid_source w (uuid_drawn w) in
  let payload := (order ++ [("client_order_id", JS.JString id)])%list in
  placeOrder config order w
  = makeRequest config "/api/v1/crypto/trading/orders/" "POST"
      (JS.JSON_stringify Number_toString (JS.JObject payload)) (drawn w)
  /\ (forall k : string, k <> "client_order_id" -> JS.get_prop payload k = JS.get_prop order k)
  /\ JS.get_prop order "client_order_id" = None
  /\ JS.get_prop payload "client_order_id" = Some (JS.JString id)
  /\ uuid_drawn (snd (placeOrder config order w)) = S (uuid_drawn w)
  /\ uuid_source (snd (placeOrder config order w)) = uuid_source w
  /\ exists body : string,
       JS.JSON_stringify Number_toString (JS.JObject payload) = Some body
       /\ body <> ""
       /\ (key_fits config = true ->
           issued (placeOrder config order) w
           = [request_at config (drawn w) "/api/v1/crypto/trading/orders/" "POST" body]
           /\ init_body
                (call_init
                   (request_at config (drawn w) "/api/v1/crypto/trading/orders/" "POST" body))
              = Some body).
Proof.
  intros Hshape id payload.
  pose proof (is_OrderPayload_no_id order Hshape) as Hnoid.
  assert (placeOrder config order w
          = makeRequest config "/api/v1/crypto/trading/orders/" "POST"
              (JS.JSON_stringify Number_toString (JS.JObject payload)) (drawn w)) as Hrun.
  { unfold placeOrder, bind, uuidv4, JS.spread_with.
    rewrite (set_prop_absent order _ _ Hnoid). reflexivity. }
  split; [exact Hrun |].
  split; [intros k Hk; apply get_prop_app_other; exact Hk |].
  split; [exact Hnoid |].
  split; [apply get_prop_app_new; exact Hnoid |].
  destruct (makeRequest_frame config "/api/v1/crypto/trading/orders/" "POST"
              (JS.JSON_stringify Number_toString (JS.JObject payload)) (drawn w))
    as (_ & Hsource & Hdrawn).
  split; [rewrite Hrun; exact Hdrawn |].
  split; [rewrite Hrun; exact Hsource |].
  destruct (JSON_stringify_object Number_toString payload) as (body & Hbody & Hne).
  exists body. split; [exact Hbody |]. split; [exact Hne |].
  intros Hkey. split.
  - unfold issued. rewrite Hrun.
    change (fetched w) with (fetched (drawn w)).
    fold (issued (makeRequest config "/api/v1/crypto/trading/orders/" "POST"
                    (JS.JSON_stringify Number_toString (JS.JObject payload))) (drawn w)).
    rewrite issued_makeRequest, Hkey, Hbody. reflexivity.
  - unfold request_at. cbn [call_init init_body]. unfold JS.ToBoolean_string.
    destruct (String.eqb_spec body "") as [E | _]; [now elim Hne | reflexivity].
Qed.

Lemma placeOrder_adds_client_order_id_witness :
  issued (@placeOrder Demo.platform Demo.config Demo.market_order)
    (Demo.world_answering 1700000000123 (Demo.success JS.JNull))
  = [@request_at Demo.platform Demo.config
       (drawn (Demo.world_answering 1700000000123 (Demo.success JS.JNull)))
       "/api/v1/crypto/trading/orders/" "POST"
       (JS.default_arg ""
          (JS.JSON_stringify Demo.integral_toString
             (JS.JObject
                (Demo.market_order
                 ++ [("client_order_id", JS.JString "00000000-0000-4000-8000-100000000000")])%list)))].
Proof.
  destruct (@placeOrder_adds_client_order_id Demo.platform Demo.config Demo.market_order
              (Demo.world_answering 1700000000123 (Demo.success JS.JNull)) eq_refl)
    as (_ & _ & _ & _ & _ & _ & body & Hbody & _ & Hissued).
  rewrite (proj1 (Hissued eq_refl)).
  do 2 f_equal. symmetry. exact (f_equal (JS.default_arg "") Hbody).
Defined.

(** An object that already has the property keeps its size under the
    spread: the property is replaced where it stands, not added. *)
Lemma spread_replaces_existing (o : JS.JSObject) (k : string) (v v0 : JS.JSValue) :
  JS.get_prop o k = Some v0 ->
  List.length (JS.spread_with o k v) = List.length o
  /\ JS.get_prop (JS.spread_with o k v) k = Some v.
Proof.
  unfold JS.spread_with.
  induction o as [| [k' v'] o IH]; cbn; [discriminate |].
  destruct (k' =? k) eqn:E; cbn; rewrite E.
  - intros _. now split.
  - intros H. destruct (IH H) as [Hl Hg]. split; [now rewrite Hl | exact Hg].
Qed.

(** C6.  For the filter object [{symbol: "BTC-USD", side: "buy"}] with no
    limit and no cursor, [getOrders] dispatches a [GET] to the orders path
    followed by [?symbol=BTC-USD&side=buy]: the two parameters in the
    order of the object, and no other. *)
Theorem getOrders_symbol_side_query {P : Platform} (config : RobinhoodConfig) :
  getOrders config (Some [("symbol", Some "BTC-USD"); ("side", Some "buy")]) None None
  = makeRequest config "/api/v1/crypto/trading/orders/?symbol=BTC-USD&side=buy" "GET" None
  /\ "/api/v1/crypto/trading/orders/?symbol=BTC-USD&side=buy"
     = "/api/v1/crypto/trading/orders/" ++ "?" ++ JS.join ["symbol=BTC-USD"; "side=buy"] "&".
Proof. split; reflexivity. Qed.

(** The query of [getBestBidAsk] for any list of symbols. *)
Lemma getBestBidAsk_query {P : Platform} (config : RobinhoodConfig) (symbols : list string) :
  getBestBidAsk config (Some symbols)
  = makeRequest config
      ("/api/v1/crypto/marketdata/best_bid_ask/?"
       ++ JS.join (map (fun s => "symbol=" ++ s) symbols) "&")
      "GET" None.
Proof. reflexivity. Qed.

(** C7.  For the symbols [["BTC-USD", "ETH-USD"]], [getBestBidAsk] dispatches
    a [GET] to the best-bid-ask path of the market data with the query
    [symbol=BTC-USD&symbol=ETH-USD]: one parameter for each symbol, in the
    order of the list, joined by [&]. *)
Theorem getBestBidAsk_two_symbols {P : Platform} (config : RobinhoodConfig) :
  getBestBidAsk config (Some ["BTC-USD"; "ETH-USD"])
  = makeRequest config
      "/api/v1/crypto/marketdata/best_bid_ask/?symbol=BTC-USD&symbol=ETH-USD" "GET" None
  /\ "symbol=BTC-USD&symbol=ETH-USD"
     = JS.join (map (fun s => "symbol=" ++ s) ["BTC-USD"; "ETH-USD"]) "&".
Proof. split; reflexivity. Qed.

(** A falsy limit pushes nothing, and neither does a falsy cursor. *)
Lemma push_limit_falsy {P : Platform} (queryParams : list string)
  (limit : option JS.number) (cursor : option string) :
  JS.truthy JS.ToBoolean_number limit = false ->
  push_limit_cursor queryParams limit cursor = push_limit_cursor queryParams None cursor.
Proof.
  unfold push_limit_cursor.
  destruct limit as [n |]; cbn [JS.truthy]; intros Hl; rewrite ?Hl; reflexivity.
Qed.

Lemma push_cursor_falsy {P : Platform} (queryParams : list string)
  (limit : option JS.number) (cursor : option string) :
  JS.truthy JS.ToBoolean_string cursor = false ->
  push_limit_cursor queryParams limit cursor = push_limit_cursor queryParams limit None.
Proof.
  unfold push_limit_cursor.
  destruct cursor as [c |]; cbn [JS.truthy]; intros Hc; rewrite ?Hc; reflexivity.
Qed.

Lemma getOrders_unfold {P : Platform} (config : RobinhoodConfig) (entries : OrderFilters)
  (limit : option JS.number) (cursor : option string) :
  getOrders config (Some entries) limit cursor
  = let queryParams := push_limit_cursor (fold_left push_filter entries []) limit cursor in
    makeRequest config
      ("/api/v1/crypto/trading/orders/"
       ++ (if (0 <? List.length queryParams)%nat then "?" ++ JS.join queryParams "&" else ""))
      "GET" None.
Proof. reflexivity. Qed.

(** C9.  An optional argument with a falsy value is dropped like an absent
    one.  With a limit that is a zero or NaN, [getOrders], [getTradingPairs]
    and [getHoldings] run as with no limit; with a cursor that is the empty
    string they run as with no cursor; and a filter property whose value is
    the empty string gives [getOrders] the run it has without the
    property. *)
Theorem falsy_optionals_are_dropped {P : Platform} (config : RobinhoodConfig)
  (limit : option JS.number) (cursor : option string) :
  JS.truthy JS.ToBoolean_number limit = false ->
  JS.truthy JS.ToBoolean_string cursor = false ->
  (forall (filters : option OrderFilters) (l : option JS.number) (c : option string),
     getOrders config filters limit c = getOrders config filters None c
     /\ getOrders config filters l cursor = getOrders config filters l None)
  /\ (forall (symbols : option (list string)) (l : option JS.number) (c : option string),
        getTradingPairs config symbols limit c = getTradingPairs config symbols None c
        /\ getTradingPairs config symbols l cursor = getTradingPairs config symbols l None)
  /\ (forall (assetCodes : option (list string)) (l : option JS.number) (c : option string),
        getHoldings config assetCodes limit c = getHoldings config assetCodes None c
        /\ getHoldings config assetCodes l cursor = getHoldings config assetCodes l None)
  /\ (forall (before after : OrderFilters) (key : string)
             (l : option JS.number) (c : option string),
        getOrders config (Some (before ++ (key, Some "") :: after)%list) l c
        = getOrders config (Some (before ++ after)%list) l c).
Proof.
  intros Hl Hc.
  split.
  { intros filters l c. unfold getOrders. cbv zeta.
    now rewrite (push_limit_falsy _ limit c Hl), (push_cursor_falsy _ l cursor Hc). }
  split.
  { intros symbols l c. unfold getTradingPairs. cbv zeta.
    destruct limit as [n |], cursor as [s |]; cbn [JS.truthy] in Hl, Hc;
      rewrite ?Hl, ?Hc; split; reflexivity. }
  split.
  { intros assetCodes l c. unfold getHoldings. cbv zeta.
    now rewrite (push_limit_falsy _ limit c Hl), (push_cursor_falsy _ l cursor Hc). }
  intros before after key l c.
  rewrite !getOrders_unfold, !fold_left_app. reflexivity.
Qed.

Lemma falsy_optionals_are_dropped_witness :
  @getOrders Demo.platform Demo.config (Some [("symbol", Some "BTC-USD")])
    (Some (S754_zero false)) (Some "")
  = @getOrders Demo.platform Demo.config (Some [("symbol", Some "BTC-USD")]) None None
  /\ @getOrders Demo.platform Demo.config (Some [("symbol", Some "BTC-USD"); ("id", Some "")])
       None None
     = @getOrders Demo.platform Demo.config (Some [("symbol", Some "BTC-USD")]) None None.
Proof.
  destruct (@falsy_optionals_are_dropped Demo.platform Demo.config
              (Some (S754_zero false)) (Some "") eq_refl eq_refl)
    as (Horders & _ & _ & Hfilter).
  split.
  - destruct (Horders (Some [("symbol", Some "BTC-USD")]) None (Some "")) as [H1 _].
    destruct (Horders (Some [("symbol", Some "BTC-USD")]) None None) as [_ H2].
    exact (eq_trans H1 H2).
  - exact (Hfilter [("symbol", Some "BTC-USD")] [] "id" None None).
Defined.

(** C10.  With an empty list of symbols [getBestBidAsk] still dispatches a
    [GET], to the best-bid-ask path followed by a bare [?]; [getOrders] and
    [getHoldings] with no filter, limit or cursor dispatch to their paths
    with no [?]. *)
Theorem empty_query_shapes {P : Platform} (config : RobinhoodConfig) :
  getBestBidAsk config (Some [])
  = makeRequest config "/api/v1/crypto/marketdata/best_bid_ask/?" "GET" None
  /\ getOrders config None None None
     = makeRequest config "/api/v1/crypto/trading/orders/" "GET" None
  /\ getHoldings config None None None
     = makeRequest config "/api/v1/crypto/trading/holdings/" "GET" None.
Proof. repeat split. Qed.

(* ================================================================= *)
(** ** More on the dispatcher *)

Section DispatcherMore.

Context {P : Platform}.
Variable config : RobinhoodConfig.

Lemma ok_range (r : Response) : ok r = true <-> (200 <= status r <= 299)%Z.
Proof.
  unfold ok. rewrite andb_true_iff, !Z.leb_le. reflexivity.
Qed.

(** The body that [request_at] attaches, read back with the default of
    the parameter, is the body that was signed. *)
Lemma attached_body_default (body : string) :
  JS.default_arg "" (if JS.ToBoolean_string body then Some body else None) = body.
Proof.
  unfold JS.ToBoolean_string.
  destruct (String.eqb_spec body "") as [-> | _]; reflexivity.
Qed.

(** As [call_dispatch], with the clock and the generator of the world in
    which [makeRequest] starts. *)
Lemma call_dispatch_world (op : Operation) (w : World) :
  exists (path : string) (body_arg : option string) (w' : World),
    call config op w = makeRequest config path (verb op) body_arg w'
    /\ fetched w' = fetched w
    /\ console w' = console w
    /\ remote w' = remote w
    /\ Date_now w' = Date_now w
    /\ uuid_source w' = uuid_source w
    /\ uuid_drawn w' = (uuid_drawn w + draws op)%nat.
Proof.
  destruct op; cbn [call verb draws];
    lazymatch goal with
    | |- context [placeOrder] =>
        unfold placeOrder, bind, uuidv4;
        eexists _, _, (drawn w); split; [reflexivity |];
        cbn [drawn fetched console remote Date_now uuid_source uuid_drawn];
        repeat (split; [reflexivity |]); symmetry; apply Nat.add_1_r
    | |- _ =>
        eexists _, None, w; split; [reflexivity |];
        repeat (split; [reflexivity |]); symmetry; apply Nat.add_0_r
    end.
Qed.

End DispatcherMore.

(** X1.  When the key fits and the call completes with a status from 200
    to 299, [makeRequest] ends as [response.json()] does, with the parsed
    value or with the rejection of the parse; it has called [fetch] once
    and written nothing to the console, also when the parse fails. *)
Theorem success_returns_json {P : Platform} (config : RobinhoodConfig)
  (path method : string) (body_arg : option string) (w : World) (r : Response) :
  key_fits config = true ->
  remote w (fetched w) (request_at config w path method (JS.default_arg "" body_arg))
  = Fulfilled r ->
  (200 <= status r <= 299)%Z ->
  makeRequest config path method body_arg w
  = (json r, called w (request_at config w path method (JS.default_arg "" body_arg)))
  /\ console (snd (makeRequest config path method body_arg w)) = console w.
Proof.
  intros Hkey Hremote Hstatus. apply ok_range in Hstatus.
  rewrite makeRequest_run, Hkey. cbv zeta. rewrite Hremote, Hstatus.
  split; reflexivity.
Qed.

Lemma success_returns_json_witness :
  outcome (@makeRequest Demo.platform Demo.config "/api/v1/crypto/trading/accounts/" "GET" None)
    (Demo.world_answering 1700000000123
       {| status := 204; json := JS.Thrown (JS.SyntaxError "Unexpected end of JSON input") |})
  = JS.Thrown (JS.SyntaxError "Unexpected end of JSON input")
  /\ console
       (snd (@makeRequest Demo.platform Demo.config "/api/v1/crypto/trading/accounts/" "GET" None
               (Demo.world_answering 1700000000123
                  {| status := 204;
                     json := JS.Thrown (JS.SyntaxError "Unexpected end of JSON input") |})))
     = [].
Proof.
  assert (200 <= 204 <= 299)%Z as Hrange by lia.
  destruct (@success_returns_json Demo.platform Demo.config
              "/api/v1/crypto/trading/accounts/" "GET" None
              (Demo.world_answering 1700000000123
                 {| status := 204;
                    json := JS.Thrown (JS.SyntaxError "Unexpected end of JSON input") |})
              {| status := 204; json := JS.Thrown (JS.SyntaxError "Unexpected end of JSON input") |}
              eq_refl eq_refl Hrange)
    as [Hrun Hconsole].
  split; [unfold outcome; rewrite Hrun; reflexivity | exact Hconsole].
Defined.

(** X2.  When the key fits and the request fails, by a status below 200
    or above 299 or by a transport that did not complete, [makeRequest]
    has called [fetch] once and written one line to the console, the label
    ["Error making request:"] with the very error it then throws. *)
Theorem failure_is_logged_once {P : Platform} (config : RobinhoodConfig)
  (path method : string) (body_arg : option string) (w : World) :
  key_fits config = true ->
  (forall r : Response,
     remote w (fetched w) (request_at config w path method (JS.default_arg "" body_arg))
     = Fulfilled r ->
     (status r < 200 \/ 299 < status r)%Z ->
     makeRequest config path method body_arg w
     = (JS.Thrown (HTTP_error (status r)),
        logged (called w (request_at config w path method (JS.default_arg "" body_arg)))
          "Error making request:" (HTTP_error (status r))))
  /\ (forall reason : string,
        remote w (fetched w) (request_at config w path method (JS.default_arg "" body_arg))
        = Rejected reason ->
        makeRequest config path method body_arg w
        = (JS.Thrown (JS.TypeError reason),
           logged (called w (request_at config w path method (JS.default_arg "" body_arg)))
             "Error making request:" (JS.TypeError reason)))
  /\ (forall e : JS.JSError,
        outcome (makeRequest config path method body_arg) w = JS.Thrown e ->
        console (snd (makeRequest config path method body_arg w)) = console w
        \/ console (snd (makeRequest config path method body_arg w))
           = (console w ++ [("Error making request:", e)])%list).
Proof.
  intros Hkey. unfold outcome. rewrite makeRequest_run, Hkey. cbv zeta.
  split; [| split].
  - intros r -> Hstatus.
    destruct (ok r) eqn:Hok; [| reflexivity].
    apply ok_range in Hok. lia.
  - intros reason ->. reflexivity.
  - intros e.
    destruct (remote _ _ _) as [r | reason]; [destruct (ok r) |]; cbn [fst snd console logged called].
    + intros _. now left.
    + intros E. injection E as <-. now right.
    + intros E. injection E as <-. now right.
Qed.

Lemma failure_is_logged_once_witness :
  console (snd (@makeRequest Demo.platform Demo.config "/api/v1/crypto/trading/accounts/" "GET"
                  None (Demo.world_answering 1700000000123 (Demo.bad_request "Invalid symbol"))))
  = [("Error making request:", JS.Error "HTTP error! status: 400")]
  /\ console (snd (@makeRequest Demo.platform Demo.config "/api/v1/crypto/trading/accounts/" "GET"
                     None (Demo.world_offline 1700000000123)))
     = [("Error making request:", JS.TypeError "fetch failed")].
Proof.
  destruct (@failure_is_logged_once Demo.platform Demo.config
              "/api/v1/crypto/trading/accounts/" "GET" None
              (Demo.world_answering 1700000000123 (Demo.bad_request "Invalid symbol")) eq_refl)
    as (Hstatus & _ & _).
  destruct (@failure_is_logged_once Demo.platform Demo.config
              "/api/v1/crypto/trading/accounts/" "GET" None
              (Demo.world_offline 1700000000123) eq_refl)
    as (_ & Hoffline & _).
  assert (status (Demo.bad_request "Invalid symbol") < 200
          \/ 299 < status (Demo.bad_request "Invalid symbol"))%Z as Hrange
      by (right; cbn; lia).
  split.
  - rewrite (Hstatus (Demo.bad_request "Invalid symbol") eq_refl Hrange). reflexivity.
  - rewrite (Hoffline "fetch failed" eq_refl). reflexivity.
Defined.

(** X3.  Whatever call an operation makes to [fetch], its URL is the base
    URL followed by a path, its method is the operation's verb, and its
    headers are the content type, the API key, the timestamp read from the
    clock and the signature, in this order; and the signature is the one
    for that timestamp, that path, that verb and the body the call carries
    (the empty string when it carries none).  An operation makes one call
    when the key fits and none when it does not. *)
Theorem request_is_what_was_signed {P : Platform} (config : RobinhoodConfig)
  (op : Operation) (w : World) :
  List.length (issued (call config op) w) = (if key_fits config then 1 else 0)%nat
  /\ fetched (snd (call config op w)) = (fetched w ++ issued (call config op) w)%list
  /\ forall c : HttpCall,
       In c (issued (call config op) w) ->
       exists path : string,
         call_url c = baseUrl ++ path
         /\ init_method (call_init c) = verb op
         /\ init_headers (call_init c)
            = [("Content-Type", "application/json");
               ("x-api-key", apiKey config);
               ("x-timestamp", timestamp_at w);
               ("x-signature",
                signature_at config (timestamp_at w) path (verb op)
                  (JS.default_arg "" (init_body (call_init c))))].
Proof.
  destruct (call_dispatch_world config op w)
    as (path & body_arg & w' & Hrun & Hf & _ & _ & Hnow & _ & _).
  assert (issued (call config op) w
          = if key_fits config
            then [request_at config w' path (verb op) (JS.default_arg "" body_arg)]
            else []) as Hissued.
  { unfold issued. rewrite Hrun, <- Hf.
    fold (issued (makeRequest config path (verb op) body_arg) w').
    apply issued_makeRequest. }
  split; [rewrite Hissued; destruct (key_fits config); reflexivity |].
  split.
  { rewrite Hissued, Hrun, makeRequest_run, <- Hf. cbv zeta.
    destruct (key_fits config); [| cbn [snd]; now rewrite app_nil_r].
    destruct (remote _ _ _) as [r | reason]; [destruct (ok r) |]; reflexivity. }
  intros c. rewrite Hissued.
  destruct (key_fits config); [| intros []].
  intros [<- | []]. exists path.
  unfold request_at, timestamp_at. cbn [call_url call_init init_method init_headers init_body].
  rewrite attached_body_default, Hnow. repeat split.
Qed.

Lemma public_key_unused_makeRequest {P : Platform} (c1 c2 : RobinhoodConfig)
  (path method : string) (body_arg : option string) (w : World) :
  privateKeyBase64 c1 = privateKeyBase64 c2 ->
  apiKey c1 = apiKey c2 ->
  makeRequest c1 path method body_arg w = makeRequest c2 path method body_arg w.
Proof.
  intros Hk Ha. rewrite !makeRequest_run.
  unfold key_fits, request_at, signature_at, message_to_sign. now rewrite Hk, Ha.
Qed.

(** X4.  The public key of the configuration has no part in any
    operation: two clients with the same private key and API key run
    every operation alike, whatever their [publicKeyBase64] holds. *)
Theorem public_key_unused {P : Platform} (c1 c2 : RobinhoodConfig) (op : Operation) (w : World) :
  privateKeyBase64 c1 = privateKeyBase64 c2 ->
  apiKey c1 = apiKey c2 ->
  call c1 op w = call c2 op w.
Proof.
  intros Hk Ha.
  destruct op; cbn [call];
    unfold getBestBidAsk, getEstimatedPrice, getTradingPairs, placeOrder, getOrder,
      cancelOrder, getOrders, getAccount, getHoldings, bind, uuidv4;
    apply public_key_unused_makeRequest; assumption.
Qed.

Lemma public_key_unused_witness :
  @call Demo.platform Demo.config GetAccount (Demo.world_offline 1700000000123)
  = @call Demo.platform
      {| privateKeyBase64 := Demo.secret; publicKeyBase64 := "not a key"; apiKey := "rh-api-demo" |}
      GetAccount (Demo.world_offline 1700000000123).
Proof.
  exact (@public_key_unused Demo.platform Demo.config
           {| privateKeyBase64 := Demo.secret; publicKeyBase64 := "not a key";
              apiKey := "rh-api-demo" |}
           GetAccount (Demo.world_offline 1700000000123) eq_refl eq_refl).
Defined.

(** X5.  [placeOrder] draws exactly one identifier from the generator,
    whatever the order holds and however the call ends, also when signing
    fails and no request is made; no other operation draws any.  No
    operation changes the clock or the generator's source. *)
Theorem identifiers_drawn {P : Platform} (config : RobinhoodConfig) (op : Operation) (w : World) :
  uuid_drawn (snd (call config op w)) = (uuid_drawn w + draws op)%nat
  /\ uuid_source (snd (call config op w)) = uuid_source w
  /\ Date_now (snd (call config op w)) = Date_now w.
Proof.
  destruct (call_dispatch_world config op w)
    as (path & body_arg & w' & Hrun & _ & _ & _ & Hnow & Hsource & Hdrawn).
  destruct (makeRequest_frame config path (verb op) body_arg w') as (Fnow & Fsource & Fdrawn).
  rewrite Hrun, Fnow, Fsource, Fdrawn. now rewrite Hnow, Hsource, Hdrawn.
Qed.

Lemma request_is_what_was_signed_witness :
  exists c : HttpCall,
    issued (@call Demo.platform Demo.config (CancelOrder "42"))
      (Demo.world_offline 1700000000123) = [c]
    /\ call_url c = "https://trading.robinhood.com/api/v1/crypto/trading/orders/42/cancel/"
    /\ init_method (call_init c) = "POST"
    /\ init_body (call_init c) = None.
Proof.
  destruct (@request_is_what_was_signed Demo.platform Demo.config (CancelOrder "42")
              (Demo.world_offline 1700000000123)) as (Hlen & _ & Hshape).
  eexists. split; [reflexivity |].
  destruct (Hshape _ (or_introl eq_refl)) as (path & _ & Hverb & _).
  split; [reflexivity |]. split; [exact Hverb | reflexivity].
Defined.

(* ================================================================= *)
(** ** More on the signer *)

(** X6.  The timestamp is the clock in whole seconds, rounded down: when
    signing succeeds, the timestamp it returns is the decimal text of the
    one integer [s] with [1000 * s <= Date.now() < 1000 * s + 1000], and
    two readings of the clock give the same timestamp exactly when they
    fall in the same second. *)
Theorem timestamp_is_floor_of_seconds {P : Platform} (config : RobinhoodConfig)
  (path method body : string) (w : World) :
  key_fits config = true ->
  (exists (s : Z) (signatureBase64 : string),
     outcome (signRequest config path method body) w
     = JS.Returned (JS.Z_toString s, signatureBase64)
     /\ (1000 * s <= Date_now w < 1000 * s + 1000)%Z)
  /\ (forall w' : World,
        timestamp_at w = timestamp_at w' <-> (Date_now w / 1000 = Date_now w' / 1000)%Z).
Proof.
  intros Hkey. split.
  - exists (Date_now w / 1000)%Z, (signature_at config (timestamp_at w) path method body).
    unfold outcome. rewrite signRequest_run, Hkey. split; [reflexivity |].
    pose proof (Z.mul_div_le (Date_now w) 1000 eq_refl).
    pose proof (Z.mul_succ_div_gt (Date_now w) 1000 eq_refl). lia.
  - intros w'. unfold timestamp_at. split; [apply Z_toString_inj | now intros ->].
Qed.

Lemma timestamp_is_floor_of_seconds_witness :
  timestamp_at (Demo.world_offline 1700000000999) = timestamp_at (Demo.world_offline 1700000000000)
  /\ timestamp_at (Demo.world_offline 1700000000999) <> timestamp_at (Demo.world_offline 1700000001000)
  /\ timestamp_at (Demo.world_offline (-1)) = "-1".
Proof.
  destruct (@timestamp_is_floor_of_seconds Demo.platform Demo.config "/" "GET" ""
              (Demo.world_offline 1700000000999) eq_refl) as [_ Hsame].
  split; [apply (Hsame (Demo.world_offline 1700000000000)); reflexivity |].
  split; [| reflexivity].
  intros E. apply (Hsame (Demo.world_offline 1700000001000)) in E. discriminate E.
Defined.

(** X7.  The message that is signed has no separators, so it does not
    determine its fields: characters moved across the border of two
    neighbouring fields leave the message, and with it the signature, as
    it was. *)
Theorem signed_fields_run_together {P : Platform} (config : RobinhoodConfig)
  (timestamp path method body moved : string) :
  message_to_sign config (timestamp ++ moved) path method body
  = message_to_sign config timestamp (moved ++ path) method body
  /\ message_to_sign config timestamp (path ++ moved) method body
     = message_to_sign config timestamp path (moved ++ method) body
  /\ message_to_sign config timestamp path (method ++ moved) body
     = message_to_sign config timestamp path method (moved ++ body)
  /\ signature_at config timestamp (path ++ moved) method body
     = signature_at config timestamp path (moved ++ method) body
  /\ signature_at config timestamp path (method ++ moved) body
     = signature_at config timestamp path method (moved ++ body).
Proof.
  assert (message_to_sign config timestamp (path ++ moved) method body
          = message_to_sign config timestamp path (moved ++ method) body) as Hpath.
  { unfold message_to_sign. now rewrite !append_assoc. }
  assert (message_to_sign config timestamp path (method ++ moved) body
          = message_to_sign config timestamp path method (moved ++ body)) as Hmethod.
  { unfold message_to_sign. now rewrite !append_assoc. }
  split; [unfold message_to_sign; now rewrite !append_assoc |].
  split; [exact Hpath |]. split; [exact Hmethod |].
  unfold signature_at. now rewrite Hpath, Hmethod.
Qed.

(* ================================================================= *)
(** ** More on the operation builders *)

Lemma append_nil_r (s : string) : s ++ "" = s.
Proof. induction s as [| c s IH]; cbn; [reflexivity | now rewrite IH]. Qed.

Lemma fold_push_filter (entries : OrderFilters) (acc : list string) :
  fold_left push_filter entries acc = (acc ++ filter_params entries)%list.
Proof.
  revert acc. induction entries as [| [key value] entries IH]; intros acc; cbn [fold_left].
  - cbn. now rewrite app_nil_r.
  - rewrite IH. unfold filter_params at 2. cbn [flat_map]. fold (filter_params entries).
    unfold push_filter, JS.push. cbn [fst snd].
    destruct value as [v |]; [destruct (JS.ToBoolean_string v) |];
      cbn [app]; rewrite <- ?app_assoc; reflexivity.
Qed.

Lemma fold_push_asset_code (codes : list string) (acc : list string) :
  fold_left (fun params code => JS.push params ("asset_code=" ++ code)) codes acc
  = (acc ++ map (fun code => ("asset_code=" ++ code)%string) codes)%list.
Proof.
  revert acc. induction codes as [| code codes IH]; intros acc; cbn [fold_left map].
  - now rewrite app_nil_r.
  - rewrite IH. unfold JS.push. now rewrite <- app_assoc.
Qed.

Lemma push_limit_cursor_params {P : Platform} (queryParams : list string)
  (limit : option JS.number) (cursor : option string) :
  push_limit_cursor queryParams limit cursor
  = (queryParams ++ limit_params limit ++ cursor_params cursor)%list.
Proof.
  unfold push_limit_cursor, limit_params, cursor_params, JS.push.
  destruct limit as [n |]; [destruct (JS.ToBoolean_number n) |];
    (destruct cursor as [c |]; [destruct (JS.ToBoolean_string c) |]);
    cbn [app]; rewrite <- ?app_assoc, ?app_nil_r; reflexivity.
Qed.

Lemma query_suffix_test (params : list string) :
  (if (0 <? List.length params)%nat then "?" ++ JS.join params "&" else "")
  = query_suffix params.
Proof. destruct params; reflexivity. Qed.

(** X8.  [getOrders] dispatches a [GET] to the orders path followed by the
    query of these parameters, in this order: one [key=value] for each
    property of the filter object whose value is a non-empty string, in
    the order of the object; then the limit, if truthy; then the cursor,
    if truthy.  With no such parameter there is no [?]. *)
Theorem getOrders_query {P : Platform} (config : RobinhoodConfig)
  (filters : option OrderFilters) (limit : option JS.number) (cursor : option string) :
  getOrders config filters limit cursor
  = makeRequest config
      ("/api/v1/crypto/trading/orders/"
       ++ query_suffix
            (filter_params (JS.default_arg [] filters)
             ++ limit_params limit ++ cursor_params cursor)%list)
      "GET" None.
Proof.
  unfold getOrders. cbv zeta.
  rewrite query_suffix_test, push_limit_cursor_params.
  destruct filters as [entries |]; cbn [JS.default_arg]; [| reflexivity].
  now rewrite fold_push_filter.
Qed.

(** X9.  [getHoldings] dispatches a [GET] to the holdings path followed by
    the query of one [asset_code=] parameter for every element of the
    list, in order and without a test of the element (an empty code still
    gives a parameter), then the limit and the cursor, if truthy.  With no
    parameter there is no [?]. *)
Theorem getHoldings_query {P : Platform} (config : RobinhoodConfig)
  (assetCodes : option (list string)) (limit : option JS.number) (cursor : option string) :
  getHoldings config assetCodes limit cursor
  = makeRequest config
      ("/api/v1/crypto/trading/holdings/"
       ++ query_suffix
            (map (fun code => ("asset_code=" ++ code)%string) (JS.default_arg [] assetCodes)
             ++ limit_params limit ++ cursor_params cursor)%list)
      "GET" None.
Proof.
  unfold getHoldings. cbv zeta.
  rewrite query_suffix_test, push_limit_cursor_params.
  destruct assetCodes as [codes |]; cbn [JS.default_arg]; [| reflexivity].
  now rewrite fold_push_asset_code.
Qed.

(** X10.  [getTradingPairs] always writes the [?]; after it come the
    symbols joined by [&], and then the limit and the cursor, if truthy,
    each led by its own [&].  So with an empty list of symbols and a
    truthy limit the query starts with [&]. *)
Theorem getTradingPairs_query {P : Platform} (config : RobinhoodConfig)
  (symbols : option (list string)) (limit : option JS.number) (cursor : option string) :
  getTradingPairs config symbols limit cursor
  = makeRequest config
      ("/api/v1/crypto/trading/trading_pairs/?"
       ++ JS.join (map (fun s => "symbol=" ++ s) (JS.default_arg ["BTC-USD"] symbols)) "&"
       ++ String.concat ""
            (map (fun p => "&" ++ p) (limit_params limit ++ cursor_params cursor)%list))
      "GET" None
  /\ (forall n : JS.number,
        JS.ToBoolean_number n = true ->
        getTradingPairs config (Some []) (Some n) None
        = makeRequest config
            ("/api/v1/crypto/trading/trading_pairs/?&limit=" ++ Number_toString n) "GET" None).
Proof.
  split.
  - unfold getTradingPairs, limit_params, cursor_params. cbv zeta.
    f_equal.
    destruct limit as [n |]; [destruct (JS.ToBoolean_number n) |];
      (destruct cursor as [c |]; [destruct (JS.ToBoolean_string c) |]);
      cbn [app map String.concat];
      rewrite ?append_assoc; cbn [append]; rewrite ?append_nil_r; reflexivity.
  - intros n Hn. unfold getTradingPairs. cbv zeta. rewrite Hn. reflexivity.
Qed.

Lemma getTradingPairs_query_witness :
  @getTradingPairs Demo.platform Demo.config (Some []) (Some (S754_finite false 5 1)) None
  = @makeRequest Demo.platform Demo.config
      "/api/v1/crypto/trading/trading_pairs/?&limit=10" "GET" None.
Proof.
  exact (proj2 (@getTradingPairs_query Demo.platform Demo.config None None None)
           (S754_finite false 5 1) eq_refl).
Defined.

Lemma join_cons2 (x y : string) (rest : list string) (sep : string) :
  JS.join (x :: y :: rest) sep = x ++ sep ++ JS.join (y :: rest) sep.
Proof. reflexivity. Qed.

Lemma join_symbols_run_together (a b : string) (rest : list string) :
  JS.join (map (fun s => "symbol=" ++ s) ((a ++ "&symbol=" ++ b) :: rest)) "&"
  = JS.join (map (fun s => "symbol=" ++ s) (a :: b :: rest)) "&".
Proof.
  cbn [map]. rewrite (join_cons2 ("symbol=" ++ a)).
  destruct rest as [| r rest].
  - cbn [map JS.join String.concat]. rewrite !append_assoc. reflexivity.
  - cbn [map]. rewrite !join_cons2, !append_assoc. reflexivity.
Qed.

(** X11.  The symbols go into the query as they are, with no
    percent-encoding: a symbol that holds [&symbol=] gives the very request
    that the two symbols around it give, in [getBestBidAsk] and in
    [getTradingPairs]. *)
Theorem symbols_are_not_encoded {P : Platform} (config : RobinhoodConfig)
  (a b : string) (rest : list string) :
  getBestBidAsk config (Some ((a ++ "&symbol=" ++ b) :: rest))
  = getBestBidAsk config (Some (a :: b :: rest))
  /\ forall (limit : option JS.number) (cursor : option string),
       getTradingPairs config (Some ((a ++ "&symbol=" ++ b) :: rest)) limit cursor
       = getTradingPairs config (Some (a :: b :: rest)) limit cursor.
Proof.
  split.
  - unfold getBestBidAsk. cbv zeta. cbn [JS.default_arg].
    now rewrite join_symbols_run_together.
  - intros limit cursor. unfold getTradingPairs. cbv zeta. cbn [JS.default_arg].
    now rewrite join_symbols_run_together.
Qed.

(** X12.  The order identifier goes into the path as it is: [getOrder] of
    an identifier that ends in [/cancel] asks, with [GET], for the very
    path to which [cancelOrder] of the identifier before it posts; and an
    empty identifier makes [getOrder] ask for the orders path followed by
    one more [/]. *)
Theorem order_id_is_not_encoded {P : Platform} (config : RobinhoodConfig) (orderId : string) :
  getOrder config (orderId ++ "/cancel")
  = makeRequest config ("/api/v1/crypto/trading/orders/" ++ orderId ++ "/cancel/") "GET" None
  /\ cancelOrder config orderId
     = makeRequest config ("/api/v1/crypto/trading/orders/" ++ orderId ++ "/cancel/") "POST" None
  /\ getOrder config "" = makeRequest config "/api/v1/crypto/trading/orders//" "GET" None.
Proof.
  unfold getOrder, cancelOrder.
  split; [| split; reflexivity].
  rewrite (append_assoc orderId). reflexivity.
Qed.

Lemma get_set_prop_same (o : JS.JSObject) (k : string) (v : JS.JSValue) :
  JS.get_prop (JS.set_prop o k v) k = Some v.
Proof.
  induction o as [| [k0 v0] o IH]; cbn.
  - now rewrite String.eqb_refl.
  - destruct (k0 =? k) eqn:E; cbn; rewrite E; [reflexivity | exact IH].
Qed.

Lemma get_set_prop_other (o : JS.JSObject) (k k' : string) (v : JS.JSValue) :
  k' <> k -> JS.get_prop (JS.set_prop o k v) k' = JS.get_prop o k'.
Proof.
  intros Hne. induction o as [| [k0 v0] o IH]; cbn.
  - destruct (String.eqb_spec k k'); [now subst | reflexivity].
  - destruct (String.eqb_spec k0 k) as [-> | _]; cbn.
    + destruct (String.eqb_spec k k'); [now subst | reflexivity].
    + destruct (k0 =? k'); [reflexivity | exact IH].
Qed.

Lemma keys_set_prop (o : JS.JSObject) (k : string) (v : JS.JSValue) :
  map fst (JS.set_prop o k v)
  = if JS.has_prop o k then map fst o else (map fst o ++ [k])%list.
Proof.
  unfold JS.has_prop. induction o as [| [k0 v0] o IH]; cbn; [reflexivity |].
  destruct (k0 =? k); cbn; [reflexivity |].
  rewrite IH. now destruct (JS.get_prop o k).
Qed.

(** X13.  Whatever object [placeOrder] is given, the payload it serializes
    holds the generated identifier under [client_order_id] and every other
    property of the order with its value; the property names are those of
    the order, in order, with [client_order_id] added at the end unless the
    order had it already.  So an identifier of the caller's own never
    reaches the server. *)
Theorem placeOrder_sends_generated_id {P : Platform} (config : RobinhoodConfig)
  (order : JS.JSObject) (w : World) :
  let id := uuid_source w (uuid_drawn w) in
  let payload := JS.spread_with order "client_order_id" (JS.JString id) in
  placeOrder config order w
  = makeRequest config "/api/v1/crypto/trading/orders/" "POST"
      (JS.JSON_stringify Number_toString (JS.JObject payload)) (drawn w)
  /\ JS.get_prop payload "client_order_id" = Some (JS.JString id)
  /\ (forall k : string, k <> "client_order_id" -> JS.get_prop payload k = JS.get_prop order k)
  /\ map fst payload
     = (if JS.has_prop order "client_order_id" then map fst order
        else map fst order ++ ["client_order_id"])%list.
Proof.
  cbv zeta. unfold JS.spread_with.
  split; [reflexivity |].
  split; [apply get_set_prop_same |].
  split; [intros k Hk; now apply get_set_prop_other |].
  apply keys_set_prop.
Qed.

Lemma placeOrder_sends_generated_id_witness :
  JS.get_prop
    (JS.spread_with (("client_order_id", JS.JString "mine") :: Demo.market_order)
       "client_order_id" (JS.JString "00000000-0000-4000-8000-100000000000"))
    "symbol"
  = Some (JS.JString "DOGE-USD")
  /\ JS.get_prop
       (JS.spread_with (("client_order_id", JS.JString "mine") :: Demo.market_order)
          "client_order_id" (JS.JString "00000000-0000-4000-8000-100000000000"))
       "client_order_id"
     = Some (JS.JString "00000000-0000-4000-8000-100000000000").
Proof.
  destruct (@placeOrder_sends_generated_id Demo.platform Demo.config
              (("client_order_id", JS.JString "mine") :: Demo.market_order)
              (Demo.world_offline 1700000000123)) as (_ & Hid & Hother & _).
  assert ("symbol" <> "client_order_id") as Hne by discriminate.
  split; [exact (Hother "symbol" Hne) | exact Hid].
Defined.

Lemma Demo_uuids_inj (i j : nat) : Demo.uuids i = Demo.uuids j -> i = j.
Proof.
  unfold Demo.uuids. intros E.
  apply append_inv_head in E. apply Z_toString_inj in E. lia.
Qed.

(** X14.  Two orders placed one after the other carry the identifiers the
    generator gives at two successive draws, whatever happened to the
    first order; so the two differ as soon as the generator never repeats
    itself. *)
Theorem successive_orders_get_successive_ids {P : Platform} (config : RobinhoodConfig)
  (first second : JS.JSObject) (w : World) :
  (forall i j : nat, uuid_source w i = uuid_source w j -> i = j) ->
  placeOrder config second (snd (placeOrder config first w))
  = makeRequest config "/api/v1/crypto/trading/orders/" "POST"
      (JS.JSON_stringify Number_toString
         (JS.JObject
            (JS.spread_with second "client_order_id"
               (JS.JString (uuid_source w (S (uuid_drawn w)))))))
      (drawn (snd (placeOrder config first w)))
  /\ JS.get_prop
       (JS.spread_with first "client_order_id" (JS.JString (uuid_source w (uuid_drawn w))))
       "client_order_id"
     <> JS.get_prop
          (JS.spread_with second "client_order_id"
             (JS.JString (uuid_source w (S (uuid_drawn w)))))
          "client_order_id".
Proof.
  intros Hinj. split.
  - set (w1 := snd (placeOrder config first w)).
    assert (uuid_source w1 = uuid_source w /\ uuid_drawn w1 = S (uuid_drawn w)) as [Hs Hd].
    { subst w1. unfold placeOrder at 1 2, bind, uuidv4.
      destruct (makeRequest_frame config "/api/v1/crypto/trading/orders/" "POST"
                  (JS.JSON_stringify Number_toString
                     (JS.JObject
                        (JS.spread_with first "client_order_id"
                           (JS.JString (uuid_source w (uuid_drawn w))))))
                  (drawn w)) as (_ & Fs & Fd).
      split; [exact Fs | exact Fd]. }
    unfold placeOrder at 1, bind, uuidv4. now rewrite Hs, Hd.
  - unfold JS.spread_with. rewrite !get_set_prop_same.
    intros E. injection E as E. apply Hinj in E.
    exact (n_Sn _ E).
Qed.

Lemma successive_orders_get_successive_ids_witness :
  JS.get_prop
    (JS.spread_with Demo.market_order "client_order_id"
       (JS.JString "00000000-0000-4000-8000-100000000000"))
    "client_order_id"
  <> JS.get_prop
       (JS.spread_with Demo.market_order "client_order_id"
          (JS.JString "00000000-0000-4000-8000-100000000001"))
       "client_order_id".
Proof.
  exact (proj2 (@successive_orders_get_successive_ids Demo.platform Demo.config
                  Demo.market_order Demo.market_order
                  (Demo.world_offline 1700000000123) Demo_uuids_inj)).
Defined.

(** A property whose value is [undefined] leaves no trace in the JSON text
    of an object. *)
Lemma stringify_skips_undefined (to_text : JS.number -> string)
  (before after : JS.JSObject) (k : string) :
  JS.JSON_stringify to_text (JS.JObject (before ++ (k, JS.JUndefined) :: after)%list)
  = JS.JSON_stringify to_text (JS.JObject (before ++ after)%list).
Proof.
  unfold JS.JSON_stringify. cbn [JS.SerializeJSONProperty].
  do 4 f_equal.
  induction before as [| [k0 v0] before IH]; cbn [app].
  - reflexivity.
  - destruct (JS.SerializeJSONProperty to_text v0); now rewrite IH.
Qed.

Lemma set_prop_around (before after : JS.JSObject) (k id : string) (u v : JS.JSValue) :
  k <> id ->
  exists before' after' : JS.JSObject,
    JS.set_prop (before ++ (k, u) :: after)%list id v = (before' ++ (k, u) :: after')%list
    /\ JS.set_prop (before ++ after)%list id v = (before' ++ after')%list.
Proof.
  intros Hne. induction before as [| [k0 v0] before IH]; cbn [app JS.set_prop].
  - exists [], (JS.set_prop after id v). cbn [app].
    destruct (String.eqb_spec k id); [contradiction | now split].
  - destruct (k0 =? id).
    + exists ((k0, v) :: before), after. now split.
    + destruct IH as (b' & a' & E1 & E2).
      exists ((k0, v0) :: b'), a'. cbn [app]. now rewrite E1, E2.
Qed.

(** X15.  An optional property of the order that is present with the value
    [undefined] is not sent: [placeOrder] runs as on the order without the
    property. *)
Theorem undefined_properties_are_not_sent {P : Platform} (config : RobinhoodConfig)
  (before after : JS.JSObject) (k : string) (w : World) :
  k <> "client_order_id" ->
  placeOrder config (before ++ (k, JS.JUndefined) :: after)%list w
  = placeOrder config (before ++ after)%list w.
Proof.
  intros Hne. unfold placeOrder, bind, uuidv4, JS.spread_with.
  destruct (set_prop_around before after k "client_order_id" JS.JUndefined
              (JS.JString (uuid_source w (uuid_drawn w))) Hne) as (b' & a' & E1 & E2).
  now rewrite E1, E2, stringify_skips_undefined.
Qed.

Lemma undefined_properties_are_not_sent_witness :
  @placeOrder Demo.platform Demo.config
    (Demo.market_order ++ [("limit_order_config", JS.JUndefined)])%list
    (Demo.world_offline 1700000000123)
  = @placeOrder Demo.platform Demo.config Demo.market_order (Demo.world_offline 1700000000123).
Proof.
  assert ("limit_order_config" <> "client_order_id") as Hne by discriminate.
  rewrite (@undefined_properties_are_not_sent Demo.platform Demo.config
             Demo.market_order [] "limit_order_config" (Demo.world_offline 1700000000123) Hne).
  now rewrite app_nil_r.
Defined.

(* ================================================================= *)
(** ** Base64: what is written reads back *)

Lemma N_below_complete (n : nat) (x : N) : (x < N.of_nat n)%N -> In x (N_below n).
Proof.
  intros Hx. unfold N_below. apply in_map_iff.
  exists (N.to_nat x). split; [apply N2Nat.id | apply in_seq; lia].
Qed.

Lemma forall_below2_true (n m : nat) (f : N -> N -> bool) :
  forall_below2 n m f = true ->
  forall x y : N, (x < N.of_nat n)%N -> (y < N.of_nat m)%N -> f x y = true.
Proof.
  unfold forall_below2. intros H x y Hx Hy.
  rewrite forallb_forall in H. specialize (H x (N_below_complete n x Hx)).
  rewrite forallb_forall in H. exact (H y (N_below_complete m y Hy)).
Qed.

Lemma first_digits_fit_all : forall_below2 256 256 first_digits_fit = true.
Proof. vm_compute. reflexivity. Qed.

Lemma last_digits_fit_all : forall_below2 256 256 last_digits_fit = true.
Proof. vm_compute. reflexivity. Qed.

Lemma to_N_below_256 (a : byte) : (Byte.to_N a < N.of_nat 256)%N.
Proof. pose proof (Byte.to_N_bounded a). lia. Qed.

Lemma reads_back_true (d : N) :
  reads_back d = true -> Base64.unbase64 (Base64.digit d) = Some d.
Proof.
  unfold reads_back. destruct (Base64.unbase64 (Base64.digit d)) as [e |]; [| discriminate].
  intros E. apply andb_prop in E. destruct E as [E _]. apply N.eqb_eq in E. now subst.
Qed.

Lemma reads_back_digit (d : N) :
  reads_back d = true -> Base64.is_digit (Base64.digit d) = true.
Proof.
  unfold reads_back. destruct (Base64.unbase64 (Base64.digit d)) as [e |]; [| discriminate].
  intros E. apply andb_prop in E. now destruct E.
Qed.

Lemma is_digit_ascii (c : ascii) :
  Base64.is_digit c = true -> (N_of_ascii c < 128)%N.
Proof.
  unfold Base64.is_digit. cbv zeta. intros H.
  repeat (apply orb_prop in H; destruct H as [H | H]);
    repeat (apply andb_prop in H; destruct H as [H ?]);
    rewrite ?N.leb_le, ?N.eqb_eq in *; lia.
Qed.

(** On a character of one byte the code unit is the byte. *)
Lemma sextets_ascii (c : ascii) (s : string) :
  (N_of_ascii c < 128)%N ->
  Base64.sextets (String c s)
  = match Base64.unbase64 c with
    | Some d => d :: Base64.sextets s
    | None => if (c =? Base64.pad)%char then [] else Base64.sextets s
    end.
Proof.
  intros Hc. unfold Base64.sextets. cbn [Base64.code_units]. cbv zeta.
  apply N.ltb_lt in Hc. rewrite Hc. cbn [Base64.sextets_of]. cbv zeta.
  apply N.ltb_lt in Hc.
  change 255%N with (N.ones 8). rewrite N.land_ones, N.mod_small by (cbn; lia).
  now rewrite ascii_N_embedding.
Qed.

Lemma sextets_digit (d : N) (s : string) :
  reads_back d = true ->
  Base64.sextets (String (Base64.digit d) s) = d :: Base64.sextets s.
Proof.
  intros H. rewrite sextets_ascii by (apply is_digit_ascii; now apply reads_back_digit).
  now rewrite (reads_back_true d H).
Qed.

Lemma sextets_pad (s : string) : Base64.sextets (String Base64.pad s) = [].
Proof. reflexivity. Qed.

Lemma byte_of_N_to_N (n : N) (a : byte) :
  N.land n 255 = Byte.to_N a -> Base64.byte_of_N n = a.
Proof. intros E. unfold Base64.byte_of_N. now rewrite E, Byte.of_to_N. Qed.

Ltac split_fits H :=
  repeat match type of H with
    | (_ && _)%bool = true =>
        let H1 := fresh "Hfit" in
        apply andb_prop in H; destruct H as [H H1];
        try apply N.eqb_eq in H1
    end.

Lemma decode_encode_bounded (n : nat) (bs : list byte) :
  (List.length bs < n)%nat -> Base64.Buffer_from_base64 (Base64.encode bs) = bs.
Proof.
  revert bs. induction n as [| n IH]; intros bs Hlen; [lia |].
  unfold Base64.Buffer_from_base64.
  destruct bs as [| a [| b [| c rest]]].
  - reflexivity.
  - pose proof (forall_below2_true _ _ _ first_digits_fit_all _ _
                  (to_N_below_256 a) (to_N_below_256 a)) as H.
    unfold first_digits_fit in H. cbv zeta in H. split_fits H.
    cbn [Base64.encode]. cbv zeta.
    rewrite !sextets_digit by assumption.
    rewrite sextets_pad. cbn [Base64.bytes_of_sextets].
    f_equal. now apply byte_of_N_to_N.
  - pose proof (forall_below2_true _ _ _ first_digits_fit_all _ _
                  (to_N_below_256 a) (to_N_below_256 b)) as H.
    unfold first_digits_fit in H. cbv zeta in H. split_fits H.
    cbn [Base64.encode]. cbv zeta.
    rewrite !sextets_digit by assumption.
    rewrite sextets_pad. cbn [Base64.bytes_of_sextets].
    f_equal; [now apply byte_of_N_to_N |].
    f_equal. now apply byte_of_N_to_N.
  - pose proof (forall_below2_true _ _ _ first_digits_fit_all _ _
                  (to_N_below_256 a) (to_N_below_256 b)) as H.
    pose proof (forall_below2_true _ _ _ last_digits_fit_all _ _
                  (to_N_below_256 b) (to_N_below_256 c)) as H'.
    unfold first_digits_fit in H. unfold last_digits_fit in H'. cbv zeta in H, H'.
    split_fits H. split_fits H'.
    cbn [Base64.encode]. cbv zeta.
    rewrite !sextets_digit by assumption.
    cbn [Base64.bytes_of_sextets].
    fold (Base64.Buffer_from_base64 (Base64.encode rest)).
    rewrite IH by (cbn [List.length] in Hlen; lia).
    f_equal; [now apply byte_of_N_to_N |].
    f_equal; [| f_equal; now apply byte_of_N_to_N].
    apply byte_of_N_to_N.
    match goal with
    | E : N.land (N.lor (N.shiftl (N.land (Byte.to_N a) 3) 4) _) 15 = _ |- _ => rewrite E
    end.
    assumption.
Qed.

(** X16.  What [toString("base64")] writes, [Buffer.from(..., "base64")]
    reads back: decoding the encoding of any bytes gives the bytes. *)
Theorem base64_round_trip (bs : list byte) :
  Base64.Buffer_from_base64 (Base64.encode bs) = bs.
Proof. apply (decode_encode_bounded (S (List.length bs))). lia. Qed.

Lemma decode_encode (bs : list byte) : Base64.Buffer_from_base64 (Base64.encode bs) = bs.
Proof. apply (decode_encode_bounded (S (List.length bs))). lia. Qed.

Lemma list_ind3 {A : Type} (Q : list A -> Prop) :
  Q [] ->
  (forall a, Q [a]) ->
  (forall a b, Q [a; b]) ->
  (forall a b c rest, Q rest -> Q (a :: b :: c :: rest)) ->
  forall l, Q l.
Proof.
  intros H0 H1 H2 H3 l.
  assert (forall n l, (List.length l < n)%nat -> Q l) as Hall.
  { induction n as [| n IH]; intros l' Hlen; [lia |].
    destruct l' as [| a [| b [| c rest]]]; auto.
    apply H3, IH. cbn [List.length] in Hlen. lia. }
  apply (Hall (S (List.length l))). lia.
Qed.

Lemma after_digits_digit (d : N) (s : string) :
  reads_back d = true ->
  Base64.after_digits (String (Base64.digit d) s) = Base64.after_digits s.
Proof. intros H. cbn [Base64.after_digits]. now rewrite (reads_back_digit d H). Qed.

Lemma encode_shape (bs : list byte) :
  String.length (Base64.encode bs) = (4 * ((List.length bs + 2) / 3))%nat
  /\ (Base64.after_digits (Base64.encode bs) = ""
      \/ Base64.after_digits (Base64.encode bs) = "="
      \/ Base64.after_digits (Base64.encode bs) = "==").
Proof.
  induction bs as [| a | a b | a b c rest [IHlen IHpad]] using list_ind3.
  - split; [reflexivity | now left].
  - pose proof (forall_below2_true _ _ _ first_digits_fit_all _ _
                  (to_N_below_256 a) (to_N_below_256 a)) as H.
    unfold first_digits_fit in H. cbv zeta in H. split_fits H.
    split; [reflexivity |].
    cbn [Base64.encode]. cbv zeta. rewrite !after_digits_digit by assumption.
    right. right. reflexivity.
  - pose proof (forall_below2_true _ _ _ first_digits_fit_all _ _
                  (to_N_below_256 a) (to_N_below_256 b)) as H.
    unfold first_digits_fit in H. cbv zeta in H. split_fits H.
    split; [reflexivity |].
    cbn [Base64.encode]. cbv zeta. rewrite !after_digits_digit by assumption.
    right. left. reflexivity.
  - pose proof (forall_below2_true _ _ _ first_digits_fit_all _ _
                  (to_N_below_256 a) (to_N_below_256 b)) as H.
    pose proof (forall_below2_true _ _ _ last_digits_fit_all _ _
                  (to_N_below_256 b) (to_N_below_256 c)) as H'.
    unfold first_digits_fit in H. unfold last_digits_fit in H'. cbv zeta in H, H'.
    split_fits H. split_fits H'.
    split.
    + cbn [Base64.encode]. cbv zeta. cbn [String.length List.length]. rewrite IHlen.
      replace (S (S (S (List.length rest))) + 2)%nat
        with (List.length rest + 2 + 1 * 3)%nat by lia.
      rewrite Nat.div_add by discriminate. lia.
    + cbn [Base64.encode]. cbv zeta. rewrite !after_digits_digit by assumption.
      exact IHpad.
Qed.

Lemma encoded_text_is_valid_base64_aux (bs : list byte) :
  Base64.valid_base64 (Base64.encode bs) = true.
Proof.
  destruct (encode_shape bs) as [Hlen Hpad].
  unfold Base64.valid_base64. rewrite Hlen.
  rewrite Nat.mul_comm, Nat.Div0.mod_mul. cbn [Nat.eqb andb].
  destruct Hpad as [-> | [-> | ->]]; reflexivity.
Qed.

(** X17.  The base64 text that [toString("base64")] writes is base64 as
    RFC 4648 defines it: four characters for every three bytes, rounded
    up, digits of the standard alphabet only, and [=] only as padding at
    the end. *)
Theorem encoded_text_is_valid_base64 (bs : list byte) :
  Base64.valid_base64 (Base64.encode bs) = true
  /\ String.length (Base64.encode bs) = (4 * ((List.length bs + 2) / 3))%nat.
Proof.
  split; [apply encoded_text_is_valid_base64_aux | apply encode_shape].
Qed.

(** X18.  A secret key of sixty-four bytes, configured as the base64 text
    of these bytes, always fits: signing succeeds, and the signature is
    made under exactly these bytes. *)
Theorem standard_secret_is_accepted {P : Platform} (config : RobinhoodConfig)
  (sk : list byte) (path method body : string) (w : World) :
  List.length sk = 64%nat ->
  privateKeyBase64 config = Base64.encode sk ->
  key_fits config = true
  /\ outcome (signRequest config path method body) w
     = JS.Returned
         (timestamp_at w,
          Base64.encode
            (firstn 64
               (crypto_sign
                  (list_byte_of_string
                     (message_to_sign config (timestamp_at w) path method body))
                  sk))).
Proof.
  intros Hlen Hkey.
  assert (key_fits config = true) as Hfits.
  { apply key_fits_length. now rewrite Hkey, decode_encode. }
  split; [exact Hfits |].
  unfold outcome. rewrite signRequest_run, Hfits. cbn [fst].
  unfold signature_at. now rewrite Hkey, decode_encode.
Qed.

Lemma standard_secret_is_accepted_witness :
  key_fits Demo.config = true.
Proof.
  assert (List.length (Base64.Buffer_from_base64 Demo.secret) = 64%nat) as Hlen
      by (vm_compute; reflexivity).
  assert (privateKeyBase64 Demo.config
          = Base64.encode (Base64.Buffer_from_base64 Demo.secret)) as Hkey
      by (vm_compute; reflexivity).
  exact (proj1 (@standard_secret_is_accepted Demo.platform Demo.config
                  (Base64.Buffer_from_base64 Demo.secret) "/" "GET" ""
                  (Demo.world_offline 0) Hlen Hkey)).
Defined.

(** X19.  The [x-signature] header is valid base64 and reads back as the
    first sixty-four bytes of the signed message; it is eighty-eight
    characters long whenever the signed message has at least sixty-four
    bytes. *)
Theorem signature_header_reads_back {P : Platform} (config : RobinhoodConfig)
  (timestamp path method body : string) :
  Base64.Buffer_from_base64 (signature_at config timestamp path method body)
  = firstn 64
      (crypto_sign
         (list_byte_of_string (message_to_sign config timestamp path method body))
         (Base64.Buffer_from_base64 (privateKeyBase64 config)))
  /\ Base64.valid_base64 (signature_at config timestamp path method body) = true
  /\ ((64 <= List.length
               (crypto_sign
                  (list_byte_of_string (message_to_sign config timestamp path method body))
                  (Base64.Buffer_from_base64 (privateKeyBase64 config))))%nat ->
      String.length (signature_at config timestamp path method body) = 88%nat).
Proof.
  unfold signature_at, Nacl.crypto_sign_BYTES.
  split; [apply decode_encode |].
  split; [apply encoded_text_is_valid_base64_aux |].
  intros Hlen.
  rewrite (proj1 (encode_shape _)), length_firstn, Nat.min_l by exact Hlen.
  reflexivity.
Qed.

(* ================================================================= *)
(** ** Where the operations go *)

Lemma join_head_tail (f : JS.number -> string) (q : JS.number) (qs : list JS.number) :
  JS.join (map f (q :: qs)) "," = f q ++ String.concat "" (map (fun x => "," ++ f x) qs).
Proof.
  revert q. induction qs as [| q' qs IH]; intros q.
  - cbn. now rewrite append_nil_r.
  - change (map f (q :: q' :: qs)) with (f q :: f q' :: map f qs).
    rewrite join_cons2.
    change (f q' :: map f qs) with (map f (q' :: qs)).
    rewrite (IH q'). f_equal.
    destruct qs as [| q'' qs]; cbn [map String.concat].
    + now rewrite append_nil_r.
    + now rewrite append_assoc.
Qed.

(** X20.  [getEstimatedPrice] writes the quantities in order, each as the
    engine prints the number, with a comma before every quantity but the
    first; with no quantity it still sends the parameter, with an empty
    value. *)
Theorem getEstimatedPrice_query {P : Platform} (config : RobinhoodConfig)
  (symbol : string) (side : PriceSide) :
  getEstimatedPrice config symbol side []
  = makeRequest config
      ("/api/v1/crypto/marketdata/estimated_price/?symbol=" ++ symbol
       ++ "&side=" ++ PriceSide_text side ++ "&quantity=")
      "GET" None
  /\ forall (q : JS.number) (qs : list JS.number),
       getEstimatedPrice config symbol side (q :: qs)
       = makeRequest config
           ("/api/v1/crypto/marketdata/estimated_price/?symbol=" ++ symbol
            ++ "&side=" ++ PriceSide_text side ++ "&quantity=" ++ Number_toString q
            ++ String.concat "" (map (fun x => "," ++ Number_toString x) qs))
           "GET" None.
Proof.
  split.
  - reflexivity.
  - intros q qs. unfold getEstimatedPrice. cbv zeta.
    now rewrite join_head_tail.
Qed.

Lemma call_path (config : RobinhoodConfig) {P : Platform} (op : Operation) (w : World) :
  exists (rest : string) (body_arg : option string) (w' : World),
    call config op w
    = makeRequest config ("/api/v1/crypto/" ++ rest) (verb op) body_arg w'
    /\ fetched w' = fetched w.
Proof.
  destruct op; cbn [call verb];
    unfold getBestBidAsk, getEstimatedPrice, getTradingPairs, placeOrder, getOrder,
      cancelOrder, getOrders, getAccount, getHoldings, bind, uuidv4; cbv zeta;
    lazymatch goal with
    | |- exists _ _ _, makeRequest _ ?path _ ?b ?w0 = _ /\ _ =>
        let path' := eval cbn [append] in path in
        lazymatch path' with
        | String _ (String _ (String _ (String _ (String _ (String _ (String _ (String _
            (String _ (String _ (String _ (String _ (String _ (String _ (String _
               ?rest)))))))))))))) =>
            exists rest, b, w0; split; [reflexivity | reflexivity]
        end
    end.
Qed.

(** X21.  No operation calls any other place than the API: every URL
    passed to [fetch] starts with
    [https://trading.robinhood.com/api/v1/crypto/], whatever the
    arguments of the operation hold. *)
Theorem every_call_targets_the_api {P : Platform} (config : RobinhoodConfig)
  (op : Operation) (w : World) (c : HttpCall) :
  In c (issued (call config op) w) ->
  exists rest : string,
    call_url c = "https://trading.robinhood.com/api/v1/crypto/" ++ rest.
Proof.
  destruct (call_path config op w) as (rest & body_arg & w' & Hrun & Hf).
  unfold issued. rewrite Hrun, <- Hf.
  fold (issued (makeRequest config ("/api/v1/crypto/" ++ rest) (verb op) body_arg) w').
  rewrite issued_makeRequest.
  destruct (key_fits config); [| intros []].
  intros [<- | []]. exists rest. reflexivity.
Qed.

Lemma every_call_targets_the_api_witness :
  exists rest : string,
    call_url
      (@request_at Demo.platform Demo.config (Demo.world_offline 0)
         "/api/v1/crypto/trading/orders/../../x/" "GET" "")
    = "https://trading.robinhood.com/api/v1/crypto/" ++ rest.
Proof.
  assert (In (@request_at Demo.platform Demo.config (Demo.world_offline 0)
                "/api/v1/crypto/trading/orders/../../x/" "GET" "")
             (issued (@call Demo.platform Demo.config (GetOrder "../../x"))
                (Demo.world_offline 0))) as Hin
      by (vm_compute; left; reflexivity).
  exact (@every_call_targets_the_api Demo.platform Demo.config (GetOrder "../../x")
           (Demo.world_offline 0) _ Hin).
Defined.

Lemma signature_header_reads_back_witness :
  String.length
    (@signature_at Demo.platform Demo.config "1700000000"
       "/api/v1/crypto/trading/accounts/" "GET" "")
  = 88%nat.
Proof.
  assert (64 <= List.length
                  (@crypto_sign Demo.platform
                     (list_byte_of_string
                        (message_to_sign Demo.config "1700000000"
                           "/api/v1/crypto/trading/accounts/" "GET" ""))
                     (Base64.Buffer_from_base64 (privateKeyBase64 Demo.config))))%nat as Hlen
      by (vm_compute; lia).
  exact (proj2 (proj2 (@signature_header_reads_back Demo.platform Demo.config "1700000000"
                         "/api/v1/crypto/trading/accounts/" "GET" "")) Hlen).
Defined.
